(** * The OpenStack Zun provider of virtual-kubelet

    A shallow embedding of [providers/openstack/zun.go]: the translation of a
    Kubernetes pod into a Zun capsule, the translation of a capsule back into a
    pod, the status mappings, and the provider operations built on them.

    Conventions.
    - Go strings are [string]; Go maps with string keys are [gmap string _],
      read with the zero value for a missing key; a Go map that the code ranges
      over is the list of its entries in the order the range visits them.
    - [float64] is Rocq's primitive binary64 [float]; [int] and [int64] are [Z]
      with the range written out where the code converts into them.
    - A Go result pair of a pointer and an error is a pair of options:
      [None] is [nil].
    - Provider operations run in the monad [M]: they thread the remote service,
      the process log and the list of requests sent, and may stop on a panic. *)

From Stdlib Require Import ZArith String Ascii List DecimalString DecimalZ DecimalPos.
From Stdlib Require Import Floats.PrimFloat Floats.SpecFloat Floats.FloatOps.
From stdpp Require Import base option list strings gmap.

Local Open Scope Z_scope.

(** Go's [error] values, by their message. *)
Definition error := string.

(** [time.Time] and [metav1.Time]: an instant, as seconds. [metav1.NewTime]
    wraps a [time.Time] without changing it. *)
Definition Time := Z.

Definition NewTime (t : Time) : Time := t.

Definition min_int64 : Z := - 2 ^ 63.

Definition max_int64 : Z := 2 ^ 63 - 1.

(** ** Numeric conversions of the Go language *)

(** [float64(n)] for an integer [n]: the nearest binary64, ties to even. *)
Definition float64_of_int (n : Z) : float :=
  SF2Prim (binary_normalize prec emax n 0 false).

(** [int64(x)] for a [float64]: the fraction is discarded. Outside the range
    of [int64], and on NaN and the infinities, the language leaves the result
    to the implementation; amd64 gives the least [int64]. *)
Definition int64_of_float64 (x : float) : Z :=
  match Prim2SF x with
  | S754_zero _ => 0
  | S754_finite s m e =>
      let magnitude :=
        if 0 <=? e then Z.pos m * 2 ^ e else Z.pos m / 2 ^ (- e) in
      let v := if s then - magnitude else magnitude in
      if (min_int64 <=? v) && (v <=? max_int64) then v else min_int64
  | S754_infinity _ | S754_nan => min_int64
  end.

(** ** Package [strconv] *)
Module strconv.

(** The sign of a numeral and the text after it. *)
Definition split_sign (s : string) : bool * string :=
  match s with
  | String "-" rest => (true, rest)
  | String "+" rest => (false, rest)
  | _ => (false, s)
  end.

(** The text of a [*strconv.NumError] of [Atoi]; the input is quoted. *)
Definition NumError (s reason : string) : error :=
  let quote := String (ascii_of_N 34) EmptyString in
  "strconv.Atoi: parsing " +:+ quote +:+ s +:+ quote +:+ ": " +:+ reason.

(** [strconv.Atoi]: an optional sign and at least one decimal digit. On a
    syntax error the value is 0; out of range it is the nearest bound. *)
Definition Atoi (s : string) : Z * option error :=
  let '(neg, body) := split_sign s in
  match body with
  | EmptyString => (0, Some (NumError s "invalid syntax"))
  | _ =>
      match NilEmpty.uint_of_string body with
      | None => (0, Some (NumError s "invalid syntax"))
      | Some d =>
          let v := if neg then - Z.of_uint d else Z.of_uint d in
          if v <? min_int64
          then (min_int64, Some (NumError s "value out of range"))
          else if max_int64 <? v
          then (max_int64, Some (NumError s "value out of range"))
          else (v, None)
      end
  end.

End strconv.

(** ** Package [fmt] *)
Module fmt.

(** [fmt.Sprintf("%d", n)]. *)
Definition Sprintf_d (n : Z) : string := NilZero.string_of_int (Z.to_int n).

(** [fmt.Sprintf("%s-%s", a, b)]. *)
Definition Sprintf_s_s (a b : string) : string := a +:+ "-" +:+ b.

(** [fmt.Sprintf("%g", x)] on the values whose rendering is plain: the
    zeros, the infinities, NaN, and whole numbers below a million in
    magnitude, which print as their decimal digits. Every other value prints
    in a shortest-digits or exponent form that is not modelled: [None]. *)
Definition Sprintf_g (x : float) : option string :=
  match Prim2SF x with
  | S754_zero false => Some "0"
  | S754_zero true => Some "-0"
  | S754_infinity false => Some "+Inf"
  | S754_infinity true => Some "-Inf"
  | S754_nan => Some "NaN"
  | S754_finite s m e =>
      let whole :=
        if 0 <=? e then Some (Z.pos m * 2 ^ e)
        else if Z.pos m mod 2 ^ (- e) =? 0 then Some (Z.pos m / 2 ^ (- e))
        else None in
      match whole with
      | Some v =>
          if v <? 1000000
          then Some (Sprintf_d (if s then - v else v))
          else None
      | None => None
      end
  end.

End fmt.

(** ** Package [resource] of the Kubernetes API machinery *)
Module resource.

Inductive Format := DecimalSI | BinarySI.

(** A quantity, held in thousandths of its unit. *)
Record Quantity := { milli : Z; format : Format }.

(** The scale of a suffix, in thousandths, and the format it selects. *)
Definition suffix_scale (suffix : string) : option (Z * Format) :=
  if String.eqb suffix "m" then Some (1, DecimalSI)
  else if String.eqb suffix "" then Some (10 ^ 3, DecimalSI)
  else if String.eqb suffix "k" then Some (10 ^ 6, DecimalSI)
  else if String.eqb suffix "M" then Some (10 ^ 9, DecimalSI)
  else if String.eqb suffix "G" then Some (10 ^ 12, DecimalSI)
  else if String.eqb suffix "T" then Some (10 ^ 15, DecimalSI)
  else if String.eqb suffix "P" then Some (10 ^ 18, DecimalSI)
  else if String.eqb suffix "E" then Some (10 ^ 21, DecimalSI)
  else if String.eqb suffix "Ki" then Some (2 ^ 10 * 10 ^ 3, BinarySI)
  else if String.eqb suffix "Mi" then Some (2 ^ 20 * 10 ^ 3, BinarySI)
  else if String.eqb suffix "Gi" then Some (2 ^ 30 * 10 ^ 3, BinarySI)
  else if String.eqb suffix "Ti" then Some (2 ^ 40 * 10 ^ 3, BinarySI)
  else if String.eqb suffix "Pi" then Some (2 ^ 50 * 10 ^ 3, BinarySI)
  else if String.eqb suffix "Ei" then Some (2 ^ 60 * 10 ^ 3, BinarySI)
  else None.

Definition is_digit (a : ascii) : bool :=
  let n := N_of_ascii a in ((48 <=? n) && (n <=? 57))%N.

(** The leading decimal digits of a text and what follows them. *)
Fixpoint span_digits (s : string) : string * string :=
  match s with
  | EmptyString => (EmptyString, EmptyString)
  | String a rest =>
      if is_digit a
      then let '(ds, suffix) := span_digits rest in (String a ds, suffix)
      else (EmptyString, s)
  end.

(** [resource.ParseQuantity] on whole-number texts: an optional sign, at least
    one digit, and a suffix of the table. The fractional and exponent forms
    of the grammar are never produced in this file and are rejected here
    like malformed text. *)
Definition ParseQuantity (s : string) : option Quantity :=
  let '(neg, body) := strconv.split_sign s in
  let '(ds, suffix) := span_digits body in
  match ds with
  | EmptyString => None
  | _ =>
      match NilEmpty.uint_of_string ds, suffix_scale suffix with
      | Some d, Some (scale, f) =>
          let v := Z.of_uint d * scale in
          Some {| milli := if neg then - v else v; format := f |}
      | _, _ => None
      end
  end.

(** [q.MilliValue()]. *)
Definition MilliValue (q : Quantity) : Z := milli q.

(** [q.Value()]: the value in whole units, rounded away from zero. *)
Definition Value (q : Quantity) : Z :=
  if 0 <=? milli q then (milli q + 999) / 1000 else - ((- milli q + 999) / 1000).

End resource.

(** ** Package [v1] of the Kubernetes API: the parts of a pod the provider
    reads or writes. Fields carry the name of their Go struct. *)
Module v1.

(** [v1.PodPhase]. *)
Inductive PodPhase := PodPending | PodRunning | PodSucceeded | PodFailed | PodUnknown.

#[global] Instance PodPhase_eq_dec : EqDecision PodPhase.
Proof. solve_decision. Defined.

Definition ResourceCPU : string := "cpu".

Definition ResourceMemory : string := "memory".

(** [rl.Cpu()]: the entry for cpu, or a zero quantity in decimal format. *)
Definition Cpu (rl : gmap string resource.Quantity) : resource.Quantity :=
  match rl !! ResourceCPU with
  | Some q => q
  | None => {| resource.milli := 0; resource.format := resource.DecimalSI |}
  end.

(** [rl.Memory()]: the entry for memory, or a zero quantity in binary format. *)
Definition Memory (rl : gmap string resource.Quantity) : resource.Quantity :=
  match rl !! ResourceMemory with
  | Some q => q
  | None => {| resource.milli := 0; resource.format := resource.BinarySI |}
  end.

(** A [v1.ResourceList] field is [None] when the Go map is [nil]. *)
Record ResourceRequirements := {
  Limits : option (gmap string resource.Quantity);
  Requests : option (gmap string resource.Quantity)
}.

Record EnvVar := { EnvVar_Name : string; EnvVar_Value : string }.

Record Container := {
  Container_Name : string;
  Container_Image : string;
  Container_Command : list string;
  Container_Args : list string;
  Container_WorkingDir : string;
  Container_ImagePullPolicy : string;
  Container_Env : list EnvVar;
  Container_Resources : ResourceRequirements
}.

Record ContainerStateWaiting := {
  Waiting_Reason : string;
  Waiting_Message : string
}.

Record ContainerStateRunning := { Running_StartedAt : Time }.

Record ContainerStateTerminated := {
  Terminated_ExitCode : Z;
  Terminated_Reason : string;
  Terminated_Message : string;
  Terminated_StartedAt : Time;
  Terminated_FinishedAt : Time
}.

(** [v1.ContainerState]: three pointers, of which a well-formed state sets
    one. *)
Record ContainerState := {
  Waiting : option ContainerStateWaiting;
  Running : option ContainerStateRunning;
  Terminated : option ContainerStateTerminated
}.

Record ContainerStatus := {
  ContainerStatus_Name : string;
  ContainerStatus_State : ContainerState;
  ContainerStatus_LastTerminationState : ContainerState;
  ContainerStatus_Ready : bool;
  ContainerStatus_RestartCount : Z;
  ContainerStatus_Image : string;
  ContainerStatus_ImageID : string;
  ContainerStatus_ContainerID : string
}.

Record TypeMeta := { Kind : string; APIVersion : string }.

Record ObjectMeta := {
  Name : string;
  Namespace : string;
  ClusterName : string;
  UID : string;
  CreationTimestamp : Time
}.

(** The provider only ever builds empty lists of volumes and conditions. *)
Inductive Volume := .

Inductive PodCondition := .

Record PodSpec := {
  NodeName : string;
  RestartPolicy : string;
  Volumes : list Volume;
  Containers : list Container
}.

Record PodStatus := {
  Phase : PodPhase;
  Conditions : list PodCondition;
  Message : string;
  Reason : string;
  HostIP : string;
  PodIP : string;
  StartTime : option Time;
  ContainerStatuses : list ContainerStatus
}.

Record Pod := {
  Pod_TypeMeta : TypeMeta;
  Pod_ObjectMeta : ObjectMeta;
  Spec : PodSpec;
  Status : PodStatus
}.

End v1.

(** ** Package [capsules] of gophercloud: the records of the Zun API.

    The source uses the one type [capsules.Container] with its [Command] as a
    list of strings where it builds a request and as a single string where it
    reads a reply, so the records take the type of that field as a parameter:
    [list string] in a request, [string] in a reply. *)
Module capsules.

Record Address := { Addr : string; Version : float }.

Record Container {Cmd : Type} := {
  Container_Name : string;
  Container_Image : string;
  Container_Command : Cmd;
  Container_WorkDir : string;
  Container_ImagePullPolicy : string;
  Container_Environment : gmap string string;
  Container_CPU : float;
  Container_Memory : float;
  Container_Status : string;
  Container_StatusDetail : string;
  Container_ContainerID : string;
  Container_CreatedAt : Time;
  Container_UpdatedAt : Time
}.

Arguments Container : clear implicits.

(** [Addresses] is [None] for a [nil] map; otherwise the entries of the map,
    network by network, in the order a range over the map visits them. *)
Record Capsule {Cmd : Type} := {
  UUID : string;
  Status : string;
  CreatedAt : Time;
  UpdatedAt : Time;
  RestartPolicy : string;
  MetaName : string;
  MetaLabels : gmap string string;
  CapsuleVersion : string;
  Containers : list (Container Cmd);
  Addresses : option (list (string * list Address))
}.

Arguments Capsule : clear implicits.

(** The records as a request carries them and as a reply does. *)
Abbreviation Template := (Capsule (list string)).

Abbreviation Reply := (Capsule string).

(** [c.CPU = x] and [c.Memory = x]. *)
Definition set_CPU {Cmd} (x : float) (c : Container Cmd) : Container Cmd :=
  {| Container_Name := Container_Name c;
     Container_Image := Container_Image c;
     Container_Command := Container_Command c;
     Container_WorkDir := Container_WorkDir c;
     Container_ImagePullPolicy := Container_ImagePullPolicy c;
     Container_Environment := Container_Environment c;
     Container_CPU := x;
     Container_Memory := Container_Memory c;
     Container_Status := Container_Status c;
     Container_StatusDetail := Container_StatusDetail c;
     Container_ContainerID := Container_ContainerID c;
     Container_CreatedAt := Container_CreatedAt c;
     Container_UpdatedAt := Container_UpdatedAt c |}.

Definition set_Memory {Cmd} (x : float) (c : Container Cmd) : Container Cmd :=
  {| Container_Name := Container_Name c;
     Container_Image := Container_Image c;
     Container_Command := Container_Command c;
     Container_WorkDir := Container_WorkDir c;
     Container_ImagePullPolicy := Container_ImagePullPolicy c;
     Container_Environment := Container_Environment c;
     Container_CPU := Container_CPU c;
     Container_Memory := x;
     Container_Status := Container_Status c;
     Container_StatusDetail := Container_StatusDetail c;
     Container_ContainerID := Container_ContainerID c;
     Container_CreatedAt := Container_CreatedAt c;
     Container_UpdatedAt := Container_UpdatedAt c |}.

(** A capsule with other containers, and with another name. *)
Definition set_Containers {Cmd} (containers : list (Container Cmd)) (c : Capsule Cmd)
  : Capsule Cmd :=
  {| UUID := UUID c;
     Status := Status c;
     CreatedAt := CreatedAt c;
     UpdatedAt := UpdatedAt c;
     RestartPolicy := RestartPolicy c;
     MetaName := MetaName c;
     MetaLabels := MetaLabels c;
     CapsuleVersion := CapsuleVersion c;
     Containers := containers;
     Addresses := Addresses c |}.

Definition set_MetaName {Cmd} (name : string) (c : Capsule Cmd) : Capsule Cmd :=
  {| UUID := UUID c;
     Status := Status c;
     CreatedAt := CreatedAt c;
     UpdatedAt := UpdatedAt c;
     RestartPolicy := RestartPolicy c;
     MetaName := name;
     MetaLabels := MetaLabels c;
     CapsuleVersion := CapsuleVersion c;
     Containers := Containers c;
     Addresses := Addresses c |}.

(** A page of a capsule listing, by what [capsules.ExtractCapsules] makes of
    it: the capsules, or an error. *)
Record Page := { ExtractCapsules : list Reply * option error }.

(** One step of paging: the page fetched, or the transport error. *)
Definition PageFetch : Type := Page + error.

End capsules.

(** ** The remote service and the monad of the provider *)

(** A request sent to the Zun API. *)
Inductive Request :=
  | ReqGet (name : string)
  | ReqCreate (name : string) (capsule : capsules.Template)
  | ReqDelete (name : string)
  | ReqList.

(** What the service behind [ZunClient] answers, as transitions of its state
    [R]. [remote_List] gives, for one walk of a pager, the pages it hands to
    its handler in order, or the transport error a step of the walk meets. *)
Class RemoteAPI (R : Type) := {
  remote_Get : string -> R -> (option capsules.Reply * option error) * R;
  remote_Create : string -> capsules.Template -> R -> option error * R;
  remote_Delete : string -> R -> option error * R;
  remote_List : R -> list capsules.PageFetch * R
}.

(** The state an operation runs in: the service, the lines written by
    [log.Println], and the requests sent so far. *)
Record World (R : Type) := {
  remote : R;
  logged : list string;
  requests : list Request
}.

Arguments remote {R} _.
Arguments logged {R} _.
Arguments requests {R} _.

(** Why a run stopped short of returning: a Go panic, or a library call on an
    argument outside of what this development models. *)
Inductive stop := GoPanic (msg : string) | OutsideModel (msg : string).

Inductive outcome (R A : Type) :=
  | Done (a : A) (w : World R)
  | Stopped (why : stop) (w : World R).

Arguments Done {R A} _ _.
Arguments Stopped {R A} _ _.

Definition M (R A : Type) : Type := World R -> outcome R A.

#[export] Instance M_ret {R} : MRet (M R) := fun A a w => Done a w.

#[export] Instance M_bind {R} : MBind (M R) := fun A B f m w =>
  match m w with
  | Done a w' => f a w'
  | Stopped why w' => Stopped why w'
  end.

(** The world a run ends in. *)
Definition world_of {R A} (o : outcome R A) : World R :=
  match o with Done _ w => w | Stopped _ w => w end.

(** A world with more lines in its log. *)
Definition log_more {R} (lines : list string) (w : World R) : World R :=
  {| remote := remote w; logged := logged w ++ lines; requests := requests w |}.

Definition panic {R A} (msg : string) : M R A := fun w => Stopped (GoPanic msg) w.

Definition outside_model {R A} (msg : string) : M R A :=
  fun w => Stopped (OutsideModel msg) w.

(** [log.Println(err)]. *)
Definition log_Println {R} (line : string) : M R () := fun w =>
  Done () {| remote := remote w; logged := logged w ++ [line]; requests := requests w |}.

(** A loop over a list whose body runs in [M]. *)
Fixpoint for_range {R S A} (body : S -> A -> M R S) (s : S) (l : list A) : M R S :=
  match l with
  | [] => mret s
  | x :: rest => s' ← body s x; for_range body s' rest
  end.

(** [resource.MustParse]: panics where [ParseQuantity] fails. *)
Definition MustParse {R} (s : string) : M R resource.Quantity :=
  match resource.ParseQuantity s with
  | Some q => mret q
  | None => panic ("cannot parse '" +:+ s +:+ "'")
  end.

(** [fmt.Sprintf("%gG", x)]. *)
Definition Sprintf_gG {R} (x : float) : M R string :=
  match fmt.Sprintf_g x with
  | Some digits => mret (digits +:+ "G")
  | None => outside_model "fmt: %g"
  end.

(** A scripted service to run the operations against: capsules by name, and
    the page steps every listing replays. *)
Record Scripted := {
  by_name : gmap string capsules.Reply;
  listing : list capsules.PageFetch
}.

(** The reply the scripted service stores for a request: the labels, name,
    policy and version of the request, a container per requested container,
    and nothing else filled in. *)
Definition scripted_reply (t : capsules.Template) : capsules.Reply :=
  {| capsules.UUID := "";
     capsules.Status := "Pending";
     capsules.CreatedAt := 0;
     capsules.UpdatedAt := 0;
     capsules.RestartPolicy := capsules.RestartPolicy t;
     capsules.MetaName := capsules.MetaName t;
     capsules.MetaLabels := capsules.MetaLabels t;
     capsules.CapsuleVersion := capsules.CapsuleVersion t;
     capsules.Containers :=
       map (fun c : capsules.Container (list string) =>
              {| capsules.Container_Name := capsules.Container_Name c;
                 capsules.Container_Image := capsules.Container_Image c;
                 capsules.Container_Command :=
                   String.concat " " (capsules.Container_Command c);
                 capsules.Container_WorkDir := capsules.Container_WorkDir c;
                 capsules.Container_ImagePullPolicy := capsules.Container_ImagePullPolicy c;
                 capsules.Container_Environment := capsules.Container_Environment c;
                 capsules.Container_CPU := capsules.Container_CPU c;
                 capsules.Container_Memory := capsules.Container_Memory c;
                 capsules.Container_Status := "Creating";
                 capsules.Container_StatusDetail := "";
                 capsules.Container_ContainerID := "";
                 capsules.Container_CreatedAt := 0;
                 capsules.Container_UpdatedAt := 0 |})
           (capsules.Containers t);
     capsules.Addresses := None |}.

#[export] Instance Scripted_api : RemoteAPI Scripted := {|
  remote_Get name r :=
    match by_name r !! name with
    | Some c => ((Some c, None), r)
    | None => ((None, Some "Resource not found"), r)
    end;
  remote_Create name t r :=
    (None, {| by_name := <[name := scripted_reply t]> (by_name r); listing := listing r |});
  remote_Delete name r :=
    match by_name r !! name with
    | Some _ => (None, {| by_name := delete name (by_name r); listing := listing r |})
    | None => (Some "Resource not found", r)
    end;
  remote_List r := (listing r, r)
|}.

(** [ZunProvider], without its client handle and resource manager: the
    service the handle reaches is the [remote] component of the world. *)
Record ZunProvider := {
  region : string;
  nodeName : string;
  operatingSystem : string;
  cpu : string;
  memory : string;
  pods : string;
  daemonEndpointPort : Z
}.

(** ** The provider *)
Section Provider.

Context {R : Type} `{RemoteAPI R}.

(** [t.String()] of a timestamp; its layout is not observed by the code. *)
Variable Time_String : Time -> string.

(** [getContainers] assigns to and reads [cpuLimit] and [memoryLimit] without
    declaring them (the two declarations are commented out in the source). The
    loop body holds no declaration, so the variables live outside the loop and
    keep their value from one container to the next; what they hold when the
    function is entered is left open here. *)
Variables cpuLimit_on_entry memoryLimit_on_entry : float.

(** *** Calls on the client *)

(** [capsules.Get(p.ZunClient, name).Extract()]. *)
Definition capsules_Get (name : string) : M R (option capsules.Reply * option error) :=
  fun w =>
    let '(reply, r) := remote_Get name (remote w) in
    Done reply {| remote := r; logged := logged w; requests := requests w ++ [ReqGet name] |}.

(** The submission of a capsule under a name. *)
Definition capsules_Create (name : string) (capsule : capsules.Template) : M R (option error) :=
  fun w =>
    let '(err, r) := remote_Create name capsule (remote w) in
    Done err {| remote := r; logged := logged w;
                requests := requests w ++ [ReqCreate name capsule] |}.

(** [capsules.Delete(p.ZunClient, name).ExtractErr()]. *)
Definition capsules_Delete (name : string) : M R (option error) :=
  fun w =>
    let '(err, r) := remote_Delete name (remote w) in
    Done err {| remote := r; logged := logged w; requests := requests w ++ [ReqDelete name] |}.

(** The walk of [EachPage] over the steps of a listing, with the variables
    the handler closes over as the state [s]: a transport error ends the walk
    with that error, an error of the handler ends it with that error, and a
    handler that answers [false] ends it without one. *)
Fixpoint each_page {S} (handler : capsules.Page -> S -> M R (bool * option error * S))
    (s : S) (steps : list capsules.PageFetch) : M R (S * option error) :=
  match steps with
  | [] => mret (s, None)
  | inr err :: _ => mret (s, Some err)
  | inl page :: rest =>
      '(ok, err, s') ← handler page s;
      match err with
      | Some e => mret (s', Some e)
      | None => if ok : bool then each_page handler s' rest else mret (s', None)
      end
  end.

(** [pager.EachPage(handler)] for [pager := capsules.List(p.ZunClient, nil)]:
    every walk asks the service anew. *)
Definition EachPage {S} (handler : capsules.Page -> S -> M R (bool * option error * S))
    (s : S) : M R (S * option error) :=
  fun w =>
    let '(steps, r) := remote_List (remote w) in
    each_page handler s steps
      {| remote := r; logged := logged w; requests := requests w ++ [ReqList] |}.

(** *** Status mappings *)

Definition zunContainerStausToContainerStatus {Cmd} (cs : capsules.Container Cmd)
  : v1.ContainerState :=
  if String.eqb (capsules.Container_Status cs) "Running"
     || String.eqb (capsules.Container_Status cs) "Stopped"
  then
    {| v1.Waiting := None;
       v1.Running :=
         Some {| v1.Running_StartedAt := NewTime (capsules.Container_CreatedAt cs) |};
       v1.Terminated := None |}
  else if String.eqb (capsules.Container_Status cs) "Error"
          || String.eqb (capsules.Container_Status cs) "Dead"
  then
    {| v1.Waiting := None;
       v1.Running := None;
       v1.Terminated :=
         Some {| v1.Terminated_ExitCode := 0;
                 v1.Terminated_Reason := capsules.Container_Status cs;
                 v1.Terminated_Message := capsules.Container_StatusDetail cs;
                 v1.Terminated_StartedAt := NewTime (capsules.Container_CreatedAt cs);
                 v1.Terminated_FinishedAt := NewTime (capsules.Container_UpdatedAt cs) |} |}
  else
    {| v1.Waiting :=
         Some {| v1.Waiting_Reason := capsules.Container_Status cs;
                 v1.Waiting_Message := capsules.Container_StatusDetail cs |};
       v1.Running := None;
       v1.Terminated := None |}.

Definition zunStatusToPodPhase (status : string) : v1.PodPhase :=
  if String.eqb status "Running" then v1.PodRunning
  else if String.eqb status "Stopped" then v1.PodSucceeded
  else if String.eqb status "Error" then v1.PodFailed
  else if String.eqb status "Dead" then v1.PodFailed
  else if String.eqb status "Creating" then v1.PodPending
  else if String.eqb status "Created" then v1.PodPending
  else if String.eqb status "Restarting" then v1.PodPending
  else if String.eqb status "Rebuilding" then v1.PodPending
  else if String.eqb status "Paused" then v1.PodPending
  else if String.eqb status "Deleting" then v1.PodPending
  else if String.eqb status "Deleted" then v1.PodPending
  else v1.PodUnknown.

Definition zunCapStatusToPodPhase (status : string) : v1.PodPhase :=
  if String.eqb status "Running" then v1.PodRunning
  else if String.eqb status "Succeeded" then v1.PodSucceeded
  else if String.eqb status "Failed" then v1.PodFailed
  else if String.eqb status "Pending" then v1.PodPending
  else v1.PodUnknown.

(** *** From a capsule to a pod *)

(** [m[key]] on a Go map of strings. *)
Definition label (m : gmap string string) (key : string) : string :=
  match m !! key with Some v => v | None => "" end.

Definition capsuleToPod (capsule : capsules.Reply) : M R (option v1.Pod * option error) :=
  let podCreationTimestamp := NewTime (capsules.CreatedAt capsule) in
  let containerStartTime := NewTime (capsules.UpdatedAt capsule) in
  '(containers, containerStatuses) ←
    for_range
      (fun '(containers, containerStatuses) (c : capsules.Container string) =>
         let containerCommand := [capsules.Container_Command c] in
         let '(containerMemoryMB, err) := strconv.Atoi "1024" in
         _ ← match err with Some e => log_Println e | None => mret () end;
         let containerMemoryGB := float64_of_int (Z.quot containerMemoryMB 1024) in
         limitsCPU ←
           MustParse (fmt.Sprintf_d (int64_of_float64 (capsules.Container_CPU c)));
         limitsMemory ← Sprintf_gG containerMemoryGB ≫= MustParse;
         requestsCPU ←
           MustParse
             (fmt.Sprintf_d
                (int64_of_float64 (capsules.Container_CPU c * 1024 / 100)%float));
         requestsMemory ← Sprintf_gG containerMemoryGB ≫= MustParse;
         let container :=
           {| v1.Container_Name := capsules.Container_Name c;
              v1.Container_Image := capsules.Container_Image c;
              v1.Container_Command := containerCommand;
              v1.Container_Args := [];
              v1.Container_WorkingDir := "";
              v1.Container_ImagePullPolicy := "";
              v1.Container_Env := [];
              v1.Container_Resources :=
                {| v1.Limits :=
                     Some (<[v1.ResourceCPU := limitsCPU]>
                             (<[v1.ResourceMemory := limitsMemory]> ∅));
                   v1.Requests :=
                     Some (<[v1.ResourceCPU := requestsCPU]>
                             (<[v1.ResourceMemory := requestsMemory]> ∅)) |} |} in
         let containerStatus :=
           {| v1.ContainerStatus_Name := capsules.Container_Name c;
              v1.ContainerStatus_State := zunContainerStausToContainerStatus c;
              v1.ContainerStatus_LastTerminationState := zunContainerStausToContainerStatus c;
              v1.ContainerStatus_Ready :=
                bool_decide (zunStatusToPodPhase (capsules.Container_Status c) = v1.PodRunning);
              v1.ContainerStatus_RestartCount := 0;
              v1.ContainerStatus_Image := capsules.Container_Image c;
              v1.ContainerStatus_ImageID := "";
              v1.ContainerStatus_ContainerID := capsules.Container_ContainerID c |} in
         mret (containers ++ [container], containerStatuses ++ [containerStatus]))
      ([], []) (capsules.Containers capsule);
  let ip :=
    match capsules.Addresses capsule with
    | None => ""
    | Some networks =>
        fold_left
          (fun ip '(_, v) =>
             fold_left
               (fun ip addr =>
                  if PrimFloat.eqb (capsules.Version addr) (float64_of_int 4)
                  then capsules.Addr addr else ip)
               v ip)
          networks ""
    end in
  let p :=
    {| v1.Pod_TypeMeta := {| v1.Kind := "Pod"; v1.APIVersion := "v1" |};
       v1.Pod_ObjectMeta :=
         {| v1.Name := label (capsules.MetaLabels capsule) "PodName";
            v1.Namespace := label (capsules.MetaLabels capsule) "Namespace";
            v1.ClusterName := label (capsules.MetaLabels capsule) "ClusterName";
            v1.UID := capsules.UUID capsule;
            v1.CreationTimestamp := podCreationTimestamp |};
       v1.Spec :=
         {| v1.NodeName := label (capsules.MetaLabels capsule) "NodeName";
            v1.RestartPolicy := "";
            v1.Volumes := [];
            v1.Containers := containers |};
       v1.Status :=
         {| v1.Phase := zunCapStatusToPodPhase (capsules.Status capsule);
            v1.Conditions := [];
            v1.Message := "";
            v1.Reason := "";
            v1.HostIP := "";
            v1.PodIP := ip;
            v1.StartTime := Some containerStartTime;
            v1.ContainerStatuses := containerStatuses |} |} in
  mret (Some p, None).

(** *** Reading pods *)

Definition GetPod (p : ZunProvider) (namespace name : string)
  : M R (option v1.Pod * option error) :=
  '(capsule, err) ← capsules_Get (fmt.Sprintf_s_s namespace name);
  match err with
  | Some e => mret (None, Some e)
  | None =>
      match capsule with
      | Some c => capsuleToPod c
      | None => panic "invalid memory address or nil pointer dereference"
      end
  end.

(** [GetPods], with the translation of an entry as a parameter. The first
    walk counts the pages, and the count only sizes the slice; the second
    walk collects the pods. *)
Definition GetPodsWith
    (translate : capsules.Reply -> M R (option v1.Pod * option error))
    (p : ZunProvider) : M R (option (list (option v1.Pod)) * option error) :=
  '(pages, err) ← EachPage (fun _ (pages : Z) => mret (true, None, pages + 1)) 0;
  match err with
  | Some e => mret (None, Some e)
  | None =>
      '(pods, err) ←
        EachPage
          (fun page (pods : list (option v1.Pod)) =>
             let '(CapsuleList, err) := capsules.ExtractCapsules page in
             match err with
             | Some e => mret (false, Some e, pods)
             | None =>
                 pods ←
                   for_range
                     (fun (pods : list (option v1.Pod)) (m : capsules.Reply) =>
                        let c := m in
                        if negb (String.eqb (label (capsules.MetaLabels m) "NodeName")
                                            (nodeName p))
                        then mret pods
                        else
                          '(pod, err) ← translate c;
                          match err with
                          | Some e => _ ← log_Println e; mret pods
                          | None => mret (pods ++ [pod])
                          end)
                     pods CapsuleList;
                 mret (true, None, pods)
             end)
          [];
      match err with
      | Some e => mret (None, Some e)
      | None => mret (Some pods, None)
      end
  end.

Definition GetPods : ZunProvider -> M R (option (list (option v1.Pod)) * option error) :=
  GetPodsWith capsuleToPod.

Definition GetPodStatus (p : ZunProvider) (namespace name : string)
  : M R (option v1.PodStatus * option error) :=
  '(pod, err) ← GetPod p namespace name;
  match err with
  | Some e => mret (None, Some e)
  | None =>
      match pod with
      | None => mret (None, None)
      | Some pod => mret (Some (v1.Status pod), None)
      end
  end.

Definition GetContainerLogs (p : ZunProvider) (namespace podName containerName : string)
    (tail : Z) : M R (string * option error) :=
  mret ("not support in Zun Provider", None).

(** *** Creating, updating and deleting pods *)

Definition getContainers (p : ZunProvider) (pod : v1.Pod)
  : list (capsules.Container (list string)) * option error :=
  let '(containers, _, _) :=
    fold_left
      (fun '(containers, cpuLimit, memoryLimit) (container : v1.Container) =>
         let c :=
           {| capsules.Container_Name := v1.Container_Name container;
              capsules.Container_Image := v1.Container_Image container;
              capsules.Container_Command :=
                v1.Container_Command container ++ v1.Container_Args container;
              capsules.Container_WorkDir := v1.Container_WorkingDir container;
              capsules.Container_ImagePullPolicy := v1.Container_ImagePullPolicy container;
              capsules.Container_Environment :=
                fold_left
                  (fun env e => <[v1.EnvVar_Name e := v1.EnvVar_Value e]> env)
                  (v1.Container_Env container) ∅;
              capsules.Container_CPU := 0;
              capsules.Container_Memory := 0;
              capsules.Container_Status := "";
              capsules.Container_StatusDetail := "";
              capsules.Container_ContainerID := "";
              capsules.Container_CreatedAt := 0;
              capsules.Container_UpdatedAt := 0 |} in
         match v1.Limits (v1.Container_Resources container) with
         | Some limits =>
             let cpuLimit :=
               match limits !! v1.ResourceCPU with
               | Some _ =>
                   (float64_of_int (resource.MilliValue (v1.Cpu limits)) / 1000)%float
               | None => cpuLimit
               end in
             let memoryLimit :=
               match limits !! v1.ResourceMemory with
               | Some _ =>
                   (float64_of_int (resource.Value (v1.Memory limits)) / 1000000000)%float
               | None => memoryLimit
               end in
             let c := capsules.set_CPU cpuLimit c in
             let c := capsules.set_Memory (memoryLimit * 1024)%float c in
             (containers ++ [c], cpuLimit, memoryLimit)
         | None => (containers ++ [c], cpuLimit, memoryLimit)
         end)
      (v1.Containers (v1.Spec pod))
      ([], cpuLimit_on_entry, memoryLimit_on_entry) in
  (containers, None).

(** The capsule [CreatePod] has assembled when it submits it. The source
    writes the hyphen of the name as a rune between the two strings. *)
Definition CreatePod_capsule (pod : v1.Pod)
    (containers : list (capsules.Container (list string))) : capsules.Template :=
  let podUID := v1.UID (v1.Pod_ObjectMeta pod) in
  let podCreationTimestamp := Time_String (v1.CreationTimestamp (v1.Pod_ObjectMeta pod)) in
  {| capsules.UUID := "";
     capsules.Status := "";
     capsules.CreatedAt := 0;
     capsules.UpdatedAt := 0;
     capsules.RestartPolicy := v1.RestartPolicy (v1.Spec pod);
     capsules.MetaName :=
       v1.Namespace (v1.Pod_ObjectMeta pod) +:+ "-" +:+ v1.Name (v1.Pod_ObjectMeta pod);
     capsules.MetaLabels :=
       <["PodName" := v1.Name (v1.Pod_ObjectMeta pod)]>
         (<["ClusterName" := v1.ClusterName (v1.Pod_ObjectMeta pod)]>
            (<["NodeName" := v1.NodeName (v1.Spec pod)]>
               (<["Namespace" := v1.Namespace (v1.Pod_ObjectMeta pod)]>
                  (<["UID" := podUID]>
                     (<["CreationTimestamp" := podCreationTimestamp]> ∅)))));
     capsules.CapsuleVersion := "beta";
     capsules.Containers := containers;
     capsules.Addresses := None |}.

(** [CreatePod]. The source stores the containers with an assignment to
    [capsules.Capsule.Containers], and its last statement calls a client and
    passes a request that the file does not declare; here the containers go
    into the capsule built above, and that capsule is submitted to the Zun
    client under the name the last statement composes. *)
Definition CreatePod (p : ZunProvider) (pod : v1.Pod) : M R (option error) :=
  let '(containers, err) := getContainers p pod in
  match err with
  | Some e => mret (Some e)
  | None =>
      capsules_Create
        (fmt.Sprintf_s_s (v1.Namespace (v1.Pod_ObjectMeta pod))
                         (v1.Name (v1.Pod_ObjectMeta pod)))
        (CreatePod_capsule pod containers)
  end.

Definition UpdatePod (p : ZunProvider) (pod : v1.Pod) : M R (option error) :=
  mret None.

Definition DeletePod (p : ZunProvider) (pod : v1.Pod) : M R (option error) :=
  capsules_Delete
    (fmt.Sprintf_s_s (v1.Namespace (v1.Pod_ObjectMeta pod))
                     (v1.Name (v1.Pod_ObjectMeta pod))).

End Provider.

(** ** Closed forms of what the translations build *)

(** The quantity [resource.MustParse] reads from the digits of [n]. *)
Definition whole_quantity (n : Z) : resource.Quantity :=
  {| resource.milli := n * 10 ^ 3; resource.format := resource.DecimalSI |}.

(** The quantity written 1G: a thousand million units. *)
Definition one_G : resource.Quantity :=
  {| resource.milli := 10 ^ 9 * 10 ^ 3; resource.format := resource.DecimalSI |}.

Definition is_IPv4 (a : capsules.Address) : bool :=
  PrimFloat.eqb (capsules.Version a) 4.

(** The addresses tagged with version 4, in the order the loops of
    [capsuleToPod] meet them. *)
Definition IPv4_addresses (addresses : option (list (string * list capsules.Address)))
  : list string :=
  match addresses with
  | None => []
  | Some networks => map capsules.Addr (List.filter is_IPv4 (concat (map snd networks)))
  end.

(** The container and the status [capsuleToPod] appends for one container
    of a capsule. *)
Definition pod_container (c : capsules.Container string) : v1.Container :=
  {| v1.Container_Name := capsules.Container_Name c;
     v1.Container_Image := capsules.Container_Image c;
     v1.Container_Command := [capsules.Container_Command c];
     v1.Container_Args := [];
     v1.Container_WorkingDir := "";
     v1.Container_ImagePullPolicy := "";
     v1.Container_Env := [];
     v1.Container_Resources :=
       {| v1.Limits :=
            Some (<[v1.ResourceCPU :=
                      whole_quantity (int64_of_float64 (capsules.Container_CPU c))]>
                    (<[v1.ResourceMemory := one_G]> ∅));
          v1.Requests :=
            Some (<[v1.ResourceCPU :=
                      whole_quantity
                        (int64_of_float64 (capsules.Container_CPU c * 1024 / 100)%float)]>
                    (<[v1.ResourceMemory := one_G]> ∅)) |} |}.

Definition pod_container_status (c : capsules.Container string) : v1.ContainerStatus :=
  {| v1.ContainerStatus_Name := capsules.Container_Name c;
     v1.ContainerStatus_State := zunContainerStausToContainerStatus c;
     v1.ContainerStatus_LastTerminationState := zunContainerStausToContainerStatus c;
     v1.ContainerStatus_Ready :=
       bool_decide (zunStatusToPodPhase (capsules.Container_Status c) = v1.PodRunning);
     v1.ContainerStatus_RestartCount := 0;
     v1.ContainerStatus_Image := capsules.Container_Image c;
     v1.ContainerStatus_ImageID := "";
     v1.ContainerStatus_ContainerID := capsules.Container_ContainerID c |}.

(** The pod [capsuleToPod] returns for a capsule. *)
Definition pod_of_capsule (capsule : capsules.Reply) : v1.Pod :=
  {| v1.Pod_TypeMeta := {| v1.Kind := "Pod"; v1.APIVersion := "v1" |};
     v1.Pod_ObjectMeta :=
       {| v1.Name := label (capsules.MetaLabels capsule) "PodName";
          v1.Namespace := label (capsules.MetaLabels capsule) "Namespace";
          v1.ClusterName := label (capsules.MetaLabels capsule) "ClusterName";
          v1.UID := capsules.UUID capsule;
          v1.CreationTimestamp := capsules.CreatedAt capsule |};
     v1.Spec :=
       {| v1.NodeName := label (capsules.MetaLabels capsule) "NodeName";
          v1.RestartPolicy := "";
          v1.Volumes := [];
          v1.Containers := map pod_container (capsules.Containers capsule) |};
     v1.Status :=
       {| v1.Phase := zunCapStatusToPodPhase (capsules.Status capsule);
          v1.Conditions := [];
          v1.Message := "";
          v1.Reason := "";
          v1.HostIP := "";
          v1.PodIP := List.last (IPv4_addresses (capsules.Addresses capsule)) "";
          v1.StartTime := Some (capsules.UpdatedAt capsule);
          v1.ContainerStatuses := map pod_container_status (capsules.Containers capsule) |} |}.

(** The entries of a listing that [GetPods] keeps, given what the translation
    returns for each, and the errors it logs for the entries it drops. *)
Definition kept (translated : capsules.Reply -> option v1.Pod * option error)
    (node : string) (entries : list capsules.Reply) : list (option v1.Pod) :=
  flat_map
    (fun m =>
       if String.eqb (label (capsules.MetaLabels m) "NodeName") node
       then match translated m with (pod, None) => [pod] | (_, Some _) => [] end
       else [])
    entries.

Definition dropped (translated : capsules.Reply -> option v1.Pod * option error)
    (node : string) (entries : list capsules.Reply) : list string :=
  flat_map
    (fun m =>
       if String.eqb (label (capsules.MetaLabels m) "NodeName") node
       then match translated m with (_, None) => [] | (_, Some e) => [e] end
       else [])
    entries.

(** The number of states a [v1.ContainerState] sets. *)
Definition states_set (st : v1.ContainerState) : nat :=
  (match v1.Waiting st with Some _ => 1 | None => 0 end
   + match v1.Running st with Some _ => 1 | None => 0 end
   + match v1.Terminated st with Some _ => 1 | None => 0 end)%nat.

(** A capsule whose containers record other amounts of memory. *)
Definition with_memories (memory_of : capsules.Container string -> float)
    (capsule : capsules.Reply) : capsules.Reply :=
  capsules.set_Containers
    (map (fun c => capsules.set_Memory (memory_of c) c) (capsules.Containers capsule))
    capsule.

(** ** Sample data *)

Definition sample_provider : ZunProvider :=
  {| region := "RegionOne";
     nodeName := "virtual-kubelet";
     operatingSystem := "Linux";
     cpu := "20";
     memory := "100Gi";
     pods := "20";
     daemonEndpointPort := 10250 |}.

Definition sample_Time_String (t : Time) : string := fmt.Sprintf_d t.

Definition sample_container (name image : string)
    (limits : option (gmap string resource.Quantity)) : v1.Container :=
  {| v1.Container_Name := name;
     v1.Container_Image := image;
     v1.Container_Command := [];
     v1.Container_Args := [];
     v1.Container_WorkingDir := "";
     v1.Container_ImagePullPolicy := "";
     v1.Container_Env := [];
     v1.Container_Resources := {| v1.Limits := limits; v1.Requests := None |} |}.

Definition sample_pod (namespace name : string) (containers : list v1.Container) : v1.Pod :=
  {| v1.Pod_TypeMeta := {| v1.Kind := "Pod"; v1.APIVersion := "v1" |};
     v1.Pod_ObjectMeta :=
       {| v1.Name := name;
          v1.Namespace := namespace;
          v1.ClusterName := "cluster";
          v1.UID := "7c9e6679";
          v1.CreationTimestamp := 1500000000 |};
     v1.Spec :=
       {| v1.NodeName := "virtual-kubelet";
          v1.RestartPolicy := "Always";
          v1.Volumes := [];
          v1.Containers := containers |};
     v1.Status :=
       {| v1.Phase := v1.PodPending;
          v1.Conditions := [];
          v1.Message := "";
          v1.Reason := "";
          v1.HostIP := "";
          v1.PodIP := "";
          v1.StartTime := None;
          v1.ContainerStatuses := [] |} |}.

(** The quantities written 500m and 256Mi. *)
Definition cpu_500m : resource.Quantity :=
  {| resource.milli := 500; resource.format := resource.DecimalSI |}.

Definition memory_256Mi : resource.Quantity :=
  {| resource.milli := 256 * 2 ^ 20 * 10 ^ 3; resource.format := resource.BinarySI |}.

(** The pod of the scenario: one container with both limits. *)
Definition scenario_pod : v1.Pod :=
  sample_pod "ns1" "web"
    [sample_container "c1" "nginx"
       (Some (<[v1.ResourceCPU := cpu_500m]> (<[v1.ResourceMemory := memory_256Mi]> ∅)))].

(** A pod of two containers: the first limits only its cpu, the second only
    its memory. *)
Definition split_limits_pod : v1.Pod :=
  sample_pod "ns1" "web"
    [sample_container "c1" "nginx" (Some (<[v1.ResourceCPU := cpu_500m]> ∅));
     sample_container "c2" "redis" (Some (<[v1.ResourceMemory := memory_256Mi]> ∅))].

Definition sample_reply_container (name status : string) (memory : float)
  : capsules.Container string :=
  {| capsules.Container_Name := name;
     capsules.Container_Image := "nginx";
     capsules.Container_Command := "nginx -g daemon-off";
     capsules.Container_WorkDir := "";
     capsules.Container_ImagePullPolicy := "";
     capsules.Container_Environment := ∅;
     capsules.Container_CPU := 2;
     capsules.Container_Memory := memory;
     capsules.Container_Status := status;
     capsules.Container_StatusDetail := "detail";
     capsules.Container_ContainerID := "4f1b";
     capsules.Container_CreatedAt := 1500000100;
     capsules.Container_UpdatedAt := 1500000200 |}.

Definition sample_reply (name node : string)
    (addresses : option (list (string * list capsules.Address))) : capsules.Reply :=
  {| capsules.UUID := "0a1b";
     capsules.Status := "Running";
     capsules.CreatedAt := 1500000100;
     capsules.UpdatedAt := 1500000200;
     capsules.RestartPolicy := "Always";
     capsules.MetaName := "ns1-" +:+ name;
     capsules.MetaLabels :=
       <["PodName" := name]> (<["Namespace" := "ns1"]> (<["NodeName" := node]> ∅));
     capsules.CapsuleVersion := "beta";
     capsules.Containers := [sample_reply_container "c1" "Running" 512];
     capsules.Addresses := addresses |}.

(** A capsule on one network with two addresses of version 4 and one of
    version 6. *)
Definition two_IPv4_reply : capsules.Reply :=
  sample_reply "web" "virtual-kubelet"
    (Some [("private",
            [ {| capsules.Addr := "10.0.0.1"; capsules.Version := 4 |};
              {| capsules.Addr := "fd00::1"; capsules.Version := 6 |};
              {| capsules.Addr := "10.0.0.2"; capsules.Version := 4 |} ])]).

(** A service that holds no capsule, and one whose listing is a single page
    of three capsules, the second of them on another node. *)
Definition empty_world : World Scripted :=
  {| remote := {| by_name := ∅; listing := [] |}; logged := []; requests := [] |}.

Definition listing_world : World Scripted :=
  {| remote :=
       {| by_name := ∅;
          listing :=
            [inl {| capsules.ExtractCapsules :=
                      ([sample_reply "web" "virtual-kubelet" None;
                        sample_reply "db" "other-node" None;
                        sample_reply "bad" "virtual-kubelet" None], None) |}] |};
     logged := [];
     requests := [] |}.

(** A translation that fails on the capsule of the pod named bad. *)
Definition picky_translation (c : capsules.Reply) : option v1.Pod * option error :=
  if String.eqb (label (capsules.MetaLabels c) "PodName") "bad"
  then (None, Some "malformed capsule")
  else (Some (pod_of_capsule c), None).

(** ** The constructor and the node reports *)

(** What the three calls of the constructor on the OpenStack client library
    answer: for each the error, if it fails. *)
Record ClientLibrary := {
  AuthOptionsFromEnv : option error;
  AuthenticatedClient : option error;
  NewContainerV1 : option error
}.

(** [NewZunProvider]. The messages built by [fmt.Errorf] are dropped by the
    source, and so is the resource manager here, which [ZunProvider] does not
    hold in this development. *)
Definition NewZunProvider (library : ClientLibrary) (config : string)
    (nodeName operatingSystem : string) (daemonEndpointPort : Z)
  : option ZunProvider * option error :=
  match AuthOptionsFromEnv library with
  | Some err => (None, Some err)
  | None =>
      match AuthenticatedClient library with
      | Some err => (None, Some err)
      | None =>
          match NewContainerV1 library with
          | Some err => (None, Some err)
          | None =>
              (Some {| region := "";
                       nodeName := nodeName;
                       operatingSystem := operatingSystem;
                       cpu := "20";
                       memory := "100Gi";
                       pods := "20";
                       daemonEndpointPort := daemonEndpointPort |},
               None)
          end
      end
  end.

(** [Capacity]: the three texts of the provider, parsed. *)
Definition Capacity {R} (p : ZunProvider) : M R (gmap string resource.Quantity) :=
  cpus ← MustParse (cpu p);
  bytes ← MustParse (memory p);
  count ← MustParse (pods p);
  mret (<["cpu" := cpus]> (<["memory" := bytes]> (<["pods" := count]> ∅))).

Record DaemonEndpoint := { Port : Z }.

Record NodeDaemonEndpoints_t := { KubeletEndpoint : DaemonEndpoint }.

Definition NodeDaemonEndpoints (p : ZunProvider) : option NodeDaemonEndpoints_t :=
  Some {| KubeletEndpoint := {| Port := daemonEndpointPort p |} |}.

(** ** Notions used to state the further properties *)


(** A capsule with one more label, or with another value for one. *)
Definition with_label (key value : string) (capsule : capsules.Reply) : capsules.Reply :=
  {| capsules.UUID := capsules.UUID capsule;
     capsules.Status := capsules.Status capsule;
     capsules.CreatedAt := capsules.CreatedAt capsule;
     capsules.UpdatedAt := capsules.UpdatedAt capsule;
     capsules.RestartPolicy := capsules.RestartPolicy capsule;
     capsules.MetaName := capsules.MetaName capsule;
     capsules.MetaLabels := <[key := value]> (capsules.MetaLabels capsule);
     capsules.CapsuleVersion := capsules.CapsuleVersion capsule;
     capsules.Containers := capsules.Containers capsule;
     capsules.Addresses := capsules.Addresses capsule |}.

(** A text without a hyphen. *)
Fixpoint no_hyphen (s : string) : bool :=
  match s with
  | EmptyString => true
  | String a rest => negb (Ascii.eqb a "-") && no_hyphen rest
  end.

(** A pod that differs from another only in its containers. *)
Definition with_containers (containers : list v1.Container) (pod : v1.Pod) : v1.Pod :=
  {| v1.Pod_TypeMeta := v1.Pod_TypeMeta pod;
     v1.Pod_ObjectMeta := v1.Pod_ObjectMeta pod;
     v1.Spec :=
       {| v1.NodeName := v1.NodeName (v1.Spec pod);
          v1.RestartPolicy := v1.RestartPolicy (v1.Spec pod);
          v1.Volumes := v1.Volumes (v1.Spec pod);
          v1.Containers := containers |};
     v1.Status := v1.Status pod |}.

(** What [getContainers] copies from a container of the pod into the
    container of the capsule. *)
Definition copied_fields (container : v1.Container)
    (c : capsules.Container (list string)) : Prop :=
  capsules.Container_Name c = v1.Container_Name container
  /\ capsules.Container_Image c = v1.Container_Image container
  /\ capsules.Container_Command c
     = v1.Container_Command container ++ v1.Container_Args container
  /\ capsules.Container_WorkDir c = v1.Container_WorkingDir container
  /\ capsules.Container_ImagePullPolicy c = v1.Container_ImagePullPolicy container
  /\ capsules.Container_Environment c
     = fold_left (fun env e => <[v1.EnvVar_Name e := v1.EnvVar_Value e]> env)
                 (v1.Container_Env container) ∅.

(** What [getContainers] makes of the limits of a container, in the cases
    that do not depend on the containers before it. *)
Definition limits_applied (container : v1.Container)
    (c : capsules.Container (list string)) : Prop :=
  match v1.Limits (v1.Container_Resources container) with
  | None => capsules.Container_CPU c = 0%float /\ capsules.Container_Memory c = 0%float
  | Some limits =>
      (forall q, limits !! v1.ResourceCPU = Some q ->
                 capsules.Container_CPU c
                 = (float64_of_int (resource.MilliValue q) / 1000)%float)
      /\ (forall q, limits !! v1.ResourceMemory = Some q ->
                    capsules.Container_Memory c
                    = (float64_of_int (resource.Value q) / 1000000000 * 1024)%float)
  end.

(** A container that sets the variable MODE twice, and a pod of it and of a
    container without limits. *)
Definition sample_env_container : v1.Container :=
  {| v1.Container_Name := "worker";
     v1.Container_Image := "busybox";
     v1.Container_Command := ["sh"];
     v1.Container_Args := ["-c"; "run"];
     v1.Container_WorkingDir := "/srv";
     v1.Container_ImagePullPolicy := "Always";
     v1.Container_Env :=
       [ {| v1.EnvVar_Name := "MODE"; v1.EnvVar_Value := "dev" |};
         {| v1.EnvVar_Name := "PORT"; v1.EnvVar_Value := "80" |};
         {| v1.EnvVar_Name := "MODE"; v1.EnvVar_Value := "prod" |} ];
     v1.Container_Resources := {| v1.Limits := None; v1.Requests := None |} |}.

Definition sample_env_pod : v1.Pod :=
  sample_pod "ns1" "jobs"
    [sample_container "c1" "nginx"
       (Some (<[v1.ResourceCPU := cpu_500m]> (<[v1.ResourceMemory := memory_256Mi]> ∅)));
     sample_env_container].

(** A service that holds the capsule of a pod of another node; one whose
    listing breaks off after its first page; and one whose second page does
    not extract. *)
Definition holding_world : World Scripted :=
  {| remote :=
       {| by_name := <["ns1-db" := sample_reply "db" "other-node" None]> ∅;
          listing := [] |};
     logged := [];
     requests := [] |}.

Definition sample_page : capsules.Page :=
  {| capsules.ExtractCapsules := ([sample_reply "web" "virtual-kubelet" None], None) |}.

Definition interrupted_world : World Scripted :=
  {| remote := {| by_name := ∅; listing := [inl sample_page; inr "connection reset"] |};
     logged := [];
     requests := [] |}.

Definition broken_page_world : World Scripted :=
  {| remote :=
       {| by_name := ∅;
          listing :=
            [inl sample_page;
             inl {| capsules.ExtractCapsules := ([], Some "unexpected end of JSON input") |}] |};
     logged := [];
     requests := [] |}.

(** The provider the constructor builds when its three calls succeed. *)
Definition sample_provider_built : ZunProvider :=
  {| region := "";
     nodeName := "virtual-kubelet";
     operatingSystem := "Linux";
     cpu := "20";
     memory := "100Gi";
     pods := "20";
     daemonEndpointPort := 10250 |}.

(** * Properties *)

(** ** Decimal text *)

Lemma span_digits_uint (d : Decimal.uint) :
  resource.span_digits (NilEmpty.string_of_uint d) = (NilEmpty.string_of_uint d, EmptyString).
Proof.
  induction d as [|d IH|d IH|d IH|d IH|d IH|d IH|d IH|d IH|d IH|d IH];
    [reflexivity | simpl; rewrite IH; reflexivity ..].
Qed.

Lemma split_sign_uint (d : Decimal.uint) :
  strconv.split_sign (NilEmpty.string_of_uint d) = (false, NilEmpty.string_of_uint d).
Proof. destruct d; reflexivity. Qed.

Lemma string_of_uint_nonempty (d : Decimal.uint) :
  d <> Decimal.Nil -> NilEmpty.string_of_uint d <> EmptyString.
Proof. destruct d; simpl; congruence. Qed.

Lemma ParseQuantity_uint (neg : bool) (d : Decimal.uint) :
  d <> Decimal.Nil ->
  resource.ParseQuantity
    (if neg then String "-" (NilEmpty.string_of_uint d) else NilEmpty.string_of_uint d)
  = Some {| resource.milli :=
              if neg then - (Z.of_uint d * 10 ^ 3) else Z.of_uint d * 10 ^ 3;
            resource.format := resource.DecimalSI |}.
Proof.
  intros Hd. unfold resource.ParseQuantity.
  assert (Hsplit :
    strconv.split_sign
      (if neg then String "-" (NilEmpty.string_of_uint d) else NilEmpty.string_of_uint d)
    = (neg, NilEmpty.string_of_uint d)).
  { destruct neg; [reflexivity | apply split_sign_uint]. }
  rewrite Hsplit, span_digits_uint, NilEmpty.usu.
  pose proof (string_of_uint_nonempty d Hd) as Hne.
  destruct (NilEmpty.string_of_uint d); [congruence | reflexivity].
Qed.

Lemma ParseQuantity_Sprintf_d (n : Z) :
  resource.ParseQuantity (fmt.Sprintf_d n) = Some (whole_quantity n).
Proof.
  destruct n as [|p|p]; [reflexivity | |].
  - unfold fmt.Sprintf_d; simpl.
    pose proof (Unsigned.to_uint_nonnil p) as Hd.
    replace (NilZero.string_of_uint (Pos.to_uint p))
      with (NilEmpty.string_of_uint (Pos.to_uint p))
      by (destruct (Pos.to_uint p); [congruence | reflexivity ..]).
    rewrite (ParseQuantity_uint false _ Hd).
    unfold whole_quantity, Z.of_uint. rewrite Unsigned.of_to. reflexivity.
  - unfold fmt.Sprintf_d; simpl.
    pose proof (Unsigned.to_uint_nonnil p) as Hd.
    replace (NilZero.string_of_uint (Pos.to_uint p))
      with (NilEmpty.string_of_uint (Pos.to_uint p))
      by (destruct (Pos.to_uint p); [congruence | reflexivity ..]).
    rewrite (ParseQuantity_uint true _ Hd).
    unfold whole_quantity, Z.of_uint. rewrite Unsigned.of_to. reflexivity.
Qed.

(** ** Runs in the monad *)
Section Runs.

Context {R : Type}.

Lemma bind_Done {A B} (m : M R A) (f : A -> M R B) (w w' : World R) (a : A) :
  m w = Done a w' -> (m ≫= f) w = f a w'.
Proof. intros Hm. unfold mbind, M_bind. rewrite Hm. reflexivity. Qed.

Lemma bind_Stopped {A B} (m : M R A) (f : A -> M R B) (w w' : World R) (why : stop) :
  m w = Stopped why w' -> (m ≫= f) w = Stopped why w'.
Proof. intros Hm. unfold mbind, M_bind. rewrite Hm. reflexivity. Qed.

Lemma MustParse_Sprintf_d (n : Z) (w : World R) :
  MustParse (fmt.Sprintf_d n) w = Done (whole_quantity n) w.
Proof. unfold MustParse. rewrite ParseQuantity_Sprintf_d. reflexivity. Qed.

Lemma Atoi_1024 : strconv.Atoi "1024" = (1024, None).
Proof. vm_compute. reflexivity. Qed.

(** The memory text of [capsuleToPod]: 1024 MB is 1 GB, printed 1G. *)
Lemma memory_text (w : World R) :
  (Sprintf_gG (float64_of_int (Z.quot 1024 1024)) ≫= MustParse) w = Done one_G w.
Proof.
  assert (Htext : fmt.Sprintf_g (float64_of_int (Z.quot 1024 1024)) = Some "1")
    by (vm_compute; reflexivity).
  assert (Hparse : resource.ParseQuantity "1G" = Some one_G)
    by (vm_compute; reflexivity).
  unfold Sprintf_gG. rewrite Htext.
  rewrite (bind_Done _ _ w w ("1" +:+ "G")) by reflexivity.
  change ("1" +:+ "G") with "1G".
  unfold MustParse. rewrite Hparse. reflexivity.
Qed.

(** The loop of [capsuleToPod] appends one container and one status per
    container of the capsule, and neither logs, panics nor leaves the model. *)
Lemma capsuleToPod_loop (body : _ -> _ -> M R _) (l : list (capsules.Container string))
    (containers : list v1.Container) (statuses : list v1.ContainerStatus) (w : World R) :
  (forall acc c w0,
      body acc c w0
      = Done (acc.1 ++ [pod_container c], acc.2 ++ [pod_container_status c]) w0) ->
  for_range body (containers, statuses) l w
  = Done (containers ++ map pod_container l, statuses ++ map pod_container_status l) w.
Proof.
  intros Hbody. revert containers statuses.
  induction l as [|c l IH]; intros containers statuses; simpl.
  - rewrite !app_nil_r. reflexivity.
  - erewrite bind_Done by apply Hbody. simpl.
    rewrite IH, <- !app_assoc. reflexivity.
Qed.

Lemma last_cons {A} (l : list A) (x d : A) : List.last (x :: l) d = List.last l x.
Proof.
  revert x d. induction l as [|y l IH]; intros x d; [reflexivity|].
  change (List.last (x :: y :: l) d) with (List.last (y :: l) d).
  rewrite (IH y d), (IH y x). reflexivity.
Qed.

Lemma last_app_default {A} (l1 l2 : list A) (d : A) :
  List.last (l1 ++ l2) d = List.last l2 (List.last l1 d).
Proof.
  revert d. induction l1 as [|x l1 IH]; intros d; [reflexivity|].
  rewrite <- app_comm_cons, !last_cons. apply IH.
Qed.

(** The inner loop that chooses the pod IP keeps the last address of
    version 4 it meets, and the address it held when it meets none. *)
Lemma ip_inner (v : list capsules.Address) (ip : string) :
  fold_left
    (fun ip addr =>
       if PrimFloat.eqb (capsules.Version addr) (float64_of_int 4)
       then capsules.Addr addr else ip)
    v ip
  = List.last (map capsules.Addr (List.filter is_IPv4 v)) ip.
Proof.
  revert ip. induction v as [|a v IH]; intros ip; simpl; [reflexivity|].
  rewrite IH. unfold is_IPv4 at 2.
  change (float64_of_int 4) with 4%float.
  destruct (PrimFloat.eqb (capsules.Version a) 4); [|reflexivity].
  rewrite map_cons, last_cons. reflexivity.
Qed.

Lemma ip_outer (networks : list (string * list capsules.Address)) (ip : string) :
  fold_left
    (fun ip '(_, v) =>
       fold_left
         (fun ip addr =>
            if PrimFloat.eqb (capsules.Version addr) (float64_of_int 4)
            then capsules.Addr addr else ip)
         v ip)
    networks ip
  = List.last (map capsules.Addr (List.filter is_IPv4 (concat (map snd networks)))) ip.
Proof.
  revert ip. induction networks as [|[name v] networks IH]; intros ip; simpl; [reflexivity|].
  rewrite IH, ip_inner, List.filter_app, map_app, last_app_default. reflexivity.
Qed.

(** [capsuleToPod] returns for every capsule, with the pod in closed form; it
    writes no log line and sends no request. *)
Lemma capsuleToPod_returns (capsule : capsules.Reply) (w : World R) :
  capsuleToPod capsule w = Done (Some (pod_of_capsule capsule), None) w.
Proof.
  unfold capsuleToPod.
  erewrite bind_Done.
  2:{ apply capsuleToPod_loop. intros [containers statuses] c w0.
      rewrite Atoi_1024.
      rewrite (bind_Done _ _ w0 w0 ()) by reflexivity.
      rewrite (bind_Done _ _ w0 w0 _ (MustParse_Sprintf_d _ w0)).
      rewrite (bind_Done _ _ w0 w0 _ (memory_text w0)).
      rewrite (bind_Done _ _ w0 w0 _ (MustParse_Sprintf_d _ w0)).
      rewrite (bind_Done _ _ w0 w0 _ (memory_text w0)).
      reflexivity. }
  simpl. unfold pod_of_capsule, IPv4_addresses, NewTime.
  destruct (capsules.Addresses capsule) as [networks|]; [|reflexivity].
  rewrite ip_outer. reflexivity.
Qed.

End Runs.

(** ** The status mappings *)

(** C2. The container state mapper sets exactly one of the three states for
    every container record: Running, started at the creation time, on the
    statuses Running and Stopped; Terminated, with the status as reason and
    the status detail as message, on Error and Dead; and Waiting, with the
    status as reason and the status detail as message, on every other
    string. *)
Theorem container_state_is_one_of_three {Cmd : Type} (cs : capsules.Container Cmd) :
  let status := capsules.Container_Status cs in
  let state := zunContainerStausToContainerStatus cs in
  states_set state = 1%nat
  /\ (status = "Running" \/ status = "Stopped" ->
      state = {| v1.Waiting := None;
                 v1.Running :=
                   Some {| v1.Running_StartedAt := capsules.Container_CreatedAt cs |};
                 v1.Terminated := None |})
  /\ (status = "Error" \/ status = "Dead" ->
      v1.Waiting state = None /\ v1.Running state = None
      /\ exists t, v1.Terminated state = Some t
           /\ v1.Terminated_Reason t = status
           /\ v1.Terminated_Message t = capsules.Container_StatusDetail cs)
  /\ (status <> "Running" -> status <> "Stopped" ->
      status <> "Error" -> status <> "Dead" ->
      state = {| v1.Waiting :=
                   Some {| v1.Waiting_Reason := status;
                           v1.Waiting_Message := capsules.Container_StatusDetail cs |};
                 v1.Running := None;
                 v1.Terminated := None |}).
Proof.
  intros status state. subst state. unfold zunContainerStausToContainerStatus.
  fold status. unfold NewTime.
  destruct (String.eqb_spec status "Running") as [Hr|Hr]; simpl.
  { split; [reflexivity | split; [reflexivity | split]].
    - intros [H0|H0]; rewrite H0 in Hr; discriminate Hr.
    - intros H0; contradiction. }
  destruct (String.eqb_spec status "Stopped") as [Hs|Hs]; simpl.
  { split; [reflexivity | split; [reflexivity | split]].
    - intros [H0|H0]; rewrite H0 in Hs; discriminate Hs.
    - intros _ H0; contradiction. }
  destruct (String.eqb_spec status "Error") as [He|He]; simpl.
  { split; [reflexivity | split; [|split]].
    - intros [H0|H0]; contradiction.
    - intros _. split; [reflexivity | split; [reflexivity|]].
      eexists; split; [reflexivity | split; reflexivity].
    - intros _ _ H0; contradiction. }
  destruct (String.eqb_spec status "Dead") as [Hd|Hd]; simpl.
  { split; [reflexivity | split; [|split]].
    - intros [H0|H0]; contradiction.
    - intros _. split; [reflexivity | split; [reflexivity|]].
      eexists; split; [reflexivity | split; reflexivity].
    - intros _ _ _ H0; contradiction. }
  split; [reflexivity | split; [|split]].
  - intros [H0|H0]; contradiction.
  - intros [H0|H0]; contradiction.
  - reflexivity.
Qed.

Lemma container_state_is_one_of_three_witness :
  let cs := sample_reply_container "c1" "Dead" 512 in
  v1.Waiting (zunContainerStausToContainerStatus cs) = None
  /\ v1.Running (zunContainerStausToContainerStatus cs) = None
  /\ exists t, v1.Terminated (zunContainerStausToContainerStatus cs) = Some t
       /\ v1.Terminated_Reason t = "Dead"
       /\ v1.Terminated_Message t = "detail".
Proof.
  apply (proj1 (proj2 (proj2
    (container_state_is_one_of_three (sample_reply_container "c1" "Dead" 512))))).
  right; reflexivity.
Defined.

(** C7. The mapping from a capsule status to a pod phase sends Running to
    Running, Succeeded to Succeeded, Failed to Failed, Pending to Pending, and
    every other string to Unknown. *)
Theorem capsule_status_to_phase :
  zunCapStatusToPodPhase "Running" = v1.PodRunning
  /\ zunCapStatusToPodPhase "Succeeded" = v1.PodSucceeded
  /\ zunCapStatusToPodPhase "Failed" = v1.PodFailed
  /\ zunCapStatusToPodPhase "Pending" = v1.PodPending
  /\ forall status : string,
       status <> "Running" -> status <> "Succeeded" ->
       status <> "Failed" -> status <> "Pending" ->
       zunCapStatusToPodPhase status = v1.PodUnknown.
Proof.
  repeat split; try reflexivity.
  intros status Hr Hs Hf Hp. unfold zunCapStatusToPodPhase.
  destruct (String.eqb_spec status "Running"); [contradiction|].
  destruct (String.eqb_spec status "Succeeded"); [contradiction|].
  destruct (String.eqb_spec status "Failed"); [contradiction|].
  destruct (String.eqb_spec status "Pending"); [contradiction|].
  reflexivity.
Qed.

Lemma capsule_status_to_phase_witness :
  zunCapStatusToPodPhase "Stopped" = v1.PodUnknown.
Proof.
  apply (proj2 (proj2 (proj2 (proj2 capsule_status_to_phase)))); discriminate.
Defined.

(** ** From a capsule back to a pod *)
Section ReadPath.

Context {R : Type}.

(** C1. A capsule that carries the labels [CreatePod] attached for a pod
    translates back to a pod with the namespace, name, cluster name and node
    name of that pod, for every pod (so also for those whose fields hold no
    separator), whatever the name of the capsule is; and the name of a
    capsule has no part in its translation. *)
Theorem identity_round_trips_through_labels
    (Time_String : Time -> string) (pod : v1.Pod)
    (containers : list (capsules.Container (list string)))
    (capsule : capsules.Reply) (w : World R) :
  capsules.MetaLabels capsule
  = capsules.MetaLabels (CreatePod_capsule Time_String pod containers) ->
  (exists pod' : v1.Pod,
      capsuleToPod capsule w = Done (Some pod', None) w
      /\ v1.Namespace (v1.Pod_ObjectMeta pod') = v1.Namespace (v1.Pod_ObjectMeta pod)
      /\ v1.Name (v1.Pod_ObjectMeta pod') = v1.Name (v1.Pod_ObjectMeta pod)
      /\ v1.ClusterName (v1.Pod_ObjectMeta pod') = v1.ClusterName (v1.Pod_ObjectMeta pod)
      /\ v1.NodeName (v1.Spec pod') = v1.NodeName (v1.Spec pod))
  /\ (forall name : string,
        capsuleToPod (capsules.set_MetaName name capsule) w = capsuleToPod capsule w).
Proof.
  intros Hlabels. split.
  - exists (pod_of_capsule capsule). split; [apply capsuleToPod_returns|].
    unfold pod_of_capsule, label; simpl. rewrite Hlabels.
    unfold CreatePod_capsule; simpl.
    repeat split; reflexivity.
  - intros name. rewrite !capsuleToPod_returns. reflexivity.
Qed.

(** C8, as the code has it. The pod IP of a translated capsule is the last
    address of version 4 that the walk over the networks of the capsule, and
    over the addresses of each network, meets: every later one replaces the
    earlier. Addresses of other versions are passed over, and without an
    address of version 4 the pod IP is the empty string. *)
Theorem podIP_is_last_IPv4 (capsule : capsules.Reply) (w : World R) :
  exists pod : v1.Pod,
    capsuleToPod capsule w = Done (Some pod, None) w
    /\ v1.PodIP (v1.Status pod) = List.last (IPv4_addresses (capsules.Addresses capsule)) ""
    /\ (IPv4_addresses (capsules.Addresses capsule) = [] -> v1.PodIP (v1.Status pod) = "").
Proof.
  exists (pod_of_capsule capsule). split; [apply capsuleToPod_returns|].
  split; [reflexivity|]. intros Hnone. simpl. rewrite Hnone. reflexivity.
Qed.

(** C10. Every container of a translated capsule has a memory limit and a
    memory request of 1G, the quantity read from the text 1G that the constant
    1024 leads to; there is one such container per container of the capsule;
    and the memory recorded in the capsule has no part in the translation. *)
Theorem translated_memory_is_one_G (capsule : capsules.Reply) (w : World R) :
  resource.ParseQuantity "1G" = Some one_G
  /\ (exists pod : v1.Pod,
        capsuleToPod capsule w = Done (Some pod, None) w
        /\ length (v1.Containers (v1.Spec pod)) = length (capsules.Containers capsule)
        /\ Forall
             (fun container : v1.Container =>
                exists limits requests : gmap string resource.Quantity,
                  v1.Limits (v1.Container_Resources container) = Some limits
                  /\ v1.Requests (v1.Container_Resources container) = Some requests
                  /\ limits !! v1.ResourceMemory = Some one_G
                  /\ requests !! v1.ResourceMemory = Some one_G)
             (v1.Containers (v1.Spec pod)))
  /\ (forall memory_of : capsules.Container string -> float,
        capsuleToPod (with_memories memory_of capsule) w = capsuleToPod capsule w).
Proof.
  split; [vm_compute; reflexivity|]. split.
  - exists (pod_of_capsule capsule). split; [apply capsuleToPod_returns|].
    simpl. split; [apply length_map|].
    apply Forall_map, Forall_forall. intros c _.
    eexists _, _. split; [reflexivity|]. split; [reflexivity|].
    split; (rewrite lookup_insert_ne by discriminate; apply lookup_insert_eq).
  - intros memory_of. rewrite !capsuleToPod_returns. do 2 f_equal.
    unfold pod_of_capsule, with_memories; simpl.
    rewrite !map_map. reflexivity.
Qed.

End ReadPath.

Lemma identity_round_trips_through_labels_witness :
  let sent :=
    CreatePod_capsule sample_Time_String scenario_pod
      (getContainers 0 0 sample_provider scenario_pod).1 in
  (exists pod' : v1.Pod,
      capsuleToPod (scripted_reply sent) empty_world = Done (Some pod', None) empty_world
      /\ v1.Namespace (v1.Pod_ObjectMeta pod') = "ns1"
      /\ v1.Name (v1.Pod_ObjectMeta pod') = "web"
      /\ v1.ClusterName (v1.Pod_ObjectMeta pod') = "cluster"
      /\ v1.NodeName (v1.Spec pod') = "virtual-kubelet")
  /\ (forall name : string,
        capsuleToPod (capsules.set_MetaName name (scripted_reply sent)) empty_world
        = capsuleToPod (scripted_reply sent) empty_world).
Proof.
  intros sent.
  exact (identity_round_trips_through_labels sample_Time_String scenario_pod
           (getContainers 0 0 sample_provider scenario_pod).1
           (scripted_reply sent) empty_world eq_refl).
Defined.

(** The claim of C8 fails on a network with two addresses of version 4: the
    pod IP is the second of them, not the first. *)
Lemma podIP_is_not_first_IPv4 :
  exists pod : v1.Pod,
    capsuleToPod two_IPv4_reply empty_world = Done (Some pod, None) empty_world
    /\ v1.PodIP (v1.Status pod) = "10.0.0.2"
    /\ head (IPv4_addresses (capsules.Addresses two_IPv4_reply)) = Some "10.0.0.1".
Proof.
  exists (pod_of_capsule two_IPv4_reply). split; [apply capsuleToPod_returns|].
  split; vm_compute; reflexivity.
Qed.

(** ** The operations of the provider *)
Section Operations.

Context {R : Type} `{RemoteAPI R}.

Lemma log_more_nil (w : World R) : log_more [] w = w.
Proof. destruct w. unfold log_more; simpl. rewrite app_nil_r. reflexivity. Qed.

Lemma log_more_app (l1 l2 : list string) (w : World R) :
  log_more l2 (log_more l1 w) = log_more (l1 ++ l2) w.
Proof. unfold log_more; simpl. rewrite app_assoc. reflexivity. Qed.

(** A walk whose handler only counts visits every page fetched. *)
Lemma each_page_counts (handler : capsules.Page -> Z -> M R (bool * option error * Z))
    (pages : list capsules.Page) (n : Z) (w : World R) :
  (forall page k w0, handler page k w0 = Done (true, None, k + 1) w0) ->
  each_page handler n (map inl pages) w = Done (n + Z.of_nat (length pages), None) w.
Proof.
  intros Hhandler. revert n. induction pages as [|page pages IH]; intros n; simpl.
  - rewrite Z.add_0_r. reflexivity.
  - erewrite bind_Done by apply Hhandler. simpl. rewrite IH.
    do 2 f_equal. lia.
Qed.

(** The loop over the entries of a page, for a body that appends what it
    keeps of an entry and logs what it drops. *)
Lemma entries_loop (body : list (option v1.Pod) -> capsules.Reply -> M R (list (option v1.Pod)))
    (keep : capsules.Reply -> list (option v1.Pod)) (drop : capsules.Reply -> list string)
    (entries : list capsules.Reply) (pods : list (option v1.Pod)) (w : World R) :
  (forall pods m w0, body pods m w0 = Done (pods ++ keep m) (log_more (drop m) w0)) ->
  for_range body pods entries w
  = Done (pods ++ flat_map keep entries) (log_more (flat_map drop entries) w).
Proof.
  intros Hbody. revert pods w. induction entries as [|m entries IH]; intros pods w; simpl.
  - rewrite app_nil_r, log_more_nil. reflexivity.
  - erewrite bind_Done by apply Hbody.
    rewrite IH, log_more_app, app_assoc. reflexivity.
Qed.

(** The walk over pages that all extract, for a handler that treats every
    page as the loop above does. *)
Lemma pages_walk
    (handler : capsules.Page -> list (option v1.Pod)
               -> M R (bool * option error * list (option v1.Pod)))
    (keep : capsules.Reply -> list (option v1.Pod)) (drop : capsules.Reply -> list string)
    (pages : list (list capsules.Reply)) (pods : list (option v1.Pod)) (w : World R) :
  (forall entries pods w0,
      handler {| capsules.ExtractCapsules := (entries, None) |} pods w0
      = Done (true, None, pods ++ flat_map keep entries)
             (log_more (flat_map drop entries) w0)) ->
  each_page handler pods
    (map (fun entries => inl {| capsules.ExtractCapsules := (entries, None) |}) pages) w
  = Done (pods ++ flat_map keep (concat pages), None)
         (log_more (flat_map drop (concat pages)) w).
Proof.
  intros Hhandler. revert pods w. induction pages as [|entries pages IH]; intros pods w; simpl.
  - rewrite app_nil_r, log_more_nil. reflexivity.
  - erewrite bind_Done by apply Hhandler. simpl.
    rewrite IH, log_more_app, !flat_map_app, app_assoc. reflexivity.
Qed.

Lemma kept_all (node : string) (entries : list capsules.Reply) :
  kept (fun c => (Some (pod_of_capsule c), None)) node entries
  = map (fun c => Some (pod_of_capsule c))
        (List.filter
           (fun m => String.eqb (label (capsules.MetaLabels m) "NodeName") node) entries).
Proof.
  unfold kept. induction entries as [|m entries IH]; simpl; [reflexivity|].
  rewrite IH. destruct (String.eqb _ node); reflexivity.
Qed.

Lemma dropped_none (node : string) (entries : list capsules.Reply) :
  dropped (fun c => (Some (pod_of_capsule c), None)) node entries = [].
Proof.
  unfold dropped. induction entries as [|m entries IH]; simpl; [reflexivity|].
  rewrite IH. destruct (String.eqb _ node); reflexivity.
Qed.

(** [GetPodsWith] on a listing whose pages all arrive and extract. *)
Lemma GetPodsWith_returns
    (translate : capsules.Reply -> M R (option v1.Pod * option error))
    (translated : capsules.Reply -> option v1.Pod * option error)
    (p : ZunProvider) (w : World R)
    (counted : list capsules.Page) (r1 : R)
    (pages : list (list capsules.Reply)) (r2 : R) :
  remote_List (remote w) = (map inl counted, r1) ->
  remote_List r1
  = (map (fun entries => inl {| capsules.ExtractCapsules := (entries, None) |}) pages, r2) ->
  (forall c w0, translate c w0 = Done (translated c) w0) ->
  GetPodsWith translate p w
  = Done (Some (kept translated (nodeName p) (concat pages)), None)
         {| remote := r2;
            logged := logged w ++ dropped translated (nodeName p) (concat pages);
            requests := requests w ++ [ReqList; ReqList] |}.
Proof.
  intros Hfirst Hsecond Htranslate. unfold GetPodsWith.
  pose (keep := fun m : capsules.Reply =>
          if String.eqb (label (capsules.MetaLabels m) "NodeName") (nodeName p)
          then match translated m with (pod, None) => [pod] | (_, Some _) => [] end
          else []).
  pose (drop := fun m : capsules.Reply =>
          if String.eqb (label (capsules.MetaLabels m) "NodeName") (nodeName p)
          then match translated m with (_, None) => [] | (_, Some e) => [e] end
          else []).
  erewrite bind_Done.
  2:{ unfold EachPage. rewrite Hfirst. apply each_page_counts. reflexivity. }
  simpl.
  erewrite bind_Done.
  2:{ unfold EachPage. simpl. rewrite Hsecond.
      apply (pages_walk _ keep drop).
      intros entries pods w0. simpl.
      erewrite bind_Done.
      2:{ apply (entries_loop _ keep drop). intros pods0 m w1. unfold keep, drop.
          destruct (String.eqb (label (capsules.MetaLabels m) "NodeName") (nodeName p));
            simpl.
          - erewrite bind_Done by apply Htranslate.
            destruct (translated m) as [pod [e|]]; simpl.
            + rewrite app_nil_r. reflexivity.
            + rewrite log_more_nil. reflexivity.
          - rewrite app_nil_r, log_more_nil. reflexivity. }
      reflexivity. }
  simpl. unfold kept, dropped, log_more, keep, drop; simpl.
  rewrite <- app_assoc. reflexivity.
Qed.

(** C3. On a listing whose pages all arrive and extract, [GetPods] returns
    exactly the translations of the entries whose NodeName label is the node
    name of the provider, in the order of the listing. An entry with another
    label is passed over; an entry whose translation returns an error is
    passed over and the error is logged; and in both cases the walk goes on
    with the entries that follow. [capsuleToPod] returns the pod
    [pod_of_capsule] and never an error (first part), so [GetPods] keeps every
    entry of its node (second part); the loop is shown as well for any
    translation that returns a pod or an error (third part). *)
Theorem GetPods_keeps_entries_of_this_node
    (p : ZunProvider) (w : World R)
    (counted : list capsules.Page) (r1 : R)
    (pages : list (list capsules.Reply)) (r2 : R) :
  remote_List (remote w) = (map inl counted, r1) ->
  remote_List r1
  = (map (fun entries => inl {| capsules.ExtractCapsules := (entries, None) |}) pages, r2) ->
  (forall (c : capsules.Reply) (w0 : World R),
      capsuleToPod c w0 = Done (Some (pod_of_capsule c), None) w0)
  /\ GetPods p w
     = Done (Some (map (fun c => Some (pod_of_capsule c))
                       (List.filter
                          (fun m => String.eqb (label (capsules.MetaLabels m) "NodeName")
                                               (nodeName p))
                          (concat pages))),
             None)
            {| remote := r2; logged := logged w;
               requests := requests w ++ [ReqList; ReqList] |}
  /\ forall (translate : capsules.Reply -> M R (option v1.Pod * option error))
            (translated : capsules.Reply -> option v1.Pod * option error),
      (forall c w0, translate c w0 = Done (translated c) w0) ->
      GetPodsWith translate p w
      = Done (Some (kept translated (nodeName p) (concat pages)), None)
             {| remote := r2;
                logged := logged w ++ dropped translated (nodeName p) (concat pages);
                requests := requests w ++ [ReqList; ReqList] |}.
Proof.
  intros Hfirst Hsecond. split; [intros; apply capsuleToPod_returns|]. split.
  - unfold GetPods.
    rewrite (GetPodsWith_returns capsuleToPod (fun c => (Some (pod_of_capsule c), None))
               p w counted r1 pages r2 Hfirst Hsecond)
      by (intros; apply capsuleToPod_returns).
    rewrite kept_all, dropped_none, app_nil_r. reflexivity.
  - intros translate translated Htranslate.
    apply (GetPodsWith_returns translate translated p w counted r1 pages r2);
      assumption.
Qed.

(** [GetPodStatus] is [GetPod] followed by the selection of the status. *)
Lemma GetPodStatus_follows_GetPod (p : ZunProvider) (namespace name : string) (w : World R) :
  GetPodStatus p namespace name w
  = match GetPod p namespace name w with
    | Done (_, Some e) w' => Done (None, Some e) w'
    | Done (pod, None) w' => Done (v1.Status <$> pod, None) w'
    | Stopped why w' => Stopped why w'
    end.
Proof.
  unfold GetPodStatus, mbind, M_bind.
  destruct (GetPod p namespace name w) as [[pod [e|]] w'|why w']; [reflexivity| |reflexivity].
  destruct pod; reflexivity.
Qed.

(** [GetPod] returns an error exactly when the service does, and a pod
    otherwise: it never returns neither. *)
Lemma GetPod_never_empty (p : ZunProvider) (namespace name : string) (w w' : World R) :
  GetPod p namespace name w <> Done (None, None) w'.
Proof.
  unfold GetPod, capsules_Get, mbind, M_bind.
  destruct (remote_Get (fmt.Sprintf_s_s namespace name) (remote w)) as [[reply [e|]] r];
    [discriminate|].
  destruct reply as [c|]; [|discriminate].
  rewrite capsuleToPod_returns. discriminate.
Qed.

(** So the branch of [GetPodStatus] that returns neither is never taken. *)
Lemma GetPodStatus_never_empty (p : ZunProvider) (namespace name : string) (w w' : World R) :
  GetPodStatus p namespace name w <> Done (None, None) w'.
Proof.
  rewrite GetPodStatus_follows_GetPod.
  pose proof (GetPod_never_empty p namespace name w) as Hne.
  destruct (GetPod p namespace name w) as [[pod [e|]] w0|why w0]; [discriminate| |discriminate].
  destruct pod; [discriminate|]. intros Heq. apply (Hne w0). reflexivity.
Qed.

(** C4, on a pod that does not exist. When the service answers the request
    for the capsule with an error, as it does for a name it does not hold,
    [GetPodStatus] returns that error, as [GetPod] does, and not the empty
    result. *)
Theorem GetPodStatus_of_missing_pod_is_an_error
    (p : ZunProvider) (namespace name : string) (w : World R)
    (reply : option capsules.Reply) (e : error) (r : R) :
  remote_Get (fmt.Sprintf_s_s namespace name) (remote w) = ((reply, Some e), r) ->
  GetPod p namespace name w
  = Done (None, Some e)
         {| remote := r; logged := logged w;
            requests := requests w ++ [ReqGet (fmt.Sprintf_s_s namespace name)] |}
  /\ GetPodStatus p namespace name w
     = Done (None, Some e)
            {| remote := r; logged := logged w;
               requests := requests w ++ [ReqGet (fmt.Sprintf_s_s namespace name)] |}.
Proof.
  intros Hget.
  assert (HGetPod :
    GetPod p namespace name w
    = Done (None, Some e)
           {| remote := r; logged := logged w;
              requests := requests w ++ [ReqGet (fmt.Sprintf_s_s namespace name)] |}).
  { unfold GetPod, capsules_Get, mbind, M_bind. rewrite Hget. reflexivity. }
  split; [exact HGetPod|].
  rewrite GetPodStatus_follows_GetPod, HGetPod. reflexivity.
Qed.

(** C5. [GetPod], [DeletePod] and [CreatePod] each send one request, and
    address it to the namespace, a hyphen and the name of the pod; the capsule
    [CreatePod] submits carries the same text as its name. The text is made
    of the namespace and the name alone. *)
Theorem operations_address_the_composed_name
    (Time_String : Time -> string) (cpuLimit_on_entry memoryLimit_on_entry : float)
    (p : ZunProvider) (pod : v1.Pod) (w : World R) :
  let namespace := v1.Namespace (v1.Pod_ObjectMeta pod) in
  let name := v1.Name (v1.Pod_ObjectMeta pod) in
  requests (world_of (GetPod p namespace name w))
  = requests w ++ [ReqGet (namespace +:+ "-" +:+ name)]
  /\ requests (world_of (DeletePod p pod w))
     = requests w ++ [ReqDelete (namespace +:+ "-" +:+ name)]
  /\ exists capsule : capsules.Template,
       requests (world_of
                   (CreatePod Time_String cpuLimit_on_entry memoryLimit_on_entry p pod w))
       = requests w ++ [ReqCreate (namespace +:+ "-" +:+ name) capsule]
       /\ capsules.MetaName capsule = namespace +:+ "-" +:+ name.
Proof.
  intros namespace name. split; [|split].
  - unfold GetPod, capsules_Get, mbind, M_bind, fmt.Sprintf_s_s.
    destruct (remote_Get (namespace +:+ "-" +:+ name) (remote w)) as [[reply [e|]] r];
      [reflexivity|].
    destruct reply as [c|]; [|reflexivity].
    rewrite capsuleToPod_returns. reflexivity.
  - unfold DeletePod, capsules_Delete, fmt.Sprintf_s_s. fold namespace name.
    destruct (remote_Delete (namespace +:+ "-" +:+ name) (remote w)) as [err r].
    reflexivity.
  - unfold CreatePod, getContainers.
    destruct (fold_left _ _ _) as [[containers cpuLimit] memoryLimit].
    exists (CreatePod_capsule Time_String pod containers).
    unfold capsules_Create, fmt.Sprintf_s_s. fold namespace name.
    destruct (remote_Create _ _ (remote w)) as [err r].
    split; reflexivity.
Qed.

(** C6, on the code. For the pod of the scenario the request goes to the
    name ns1-web and its container has 0.5 cpus and, as memory, 268435456
    bytes over ten to the ninth, times 1024: in GB, between 0.256 and five
    percent more. On the pod whose first container
    limits only its cpu and whose second limits only its memory, the first
    container is given a memory from the value [memoryLimit] had on entry, and
    the second is given the 0.5 cpus of the first: the two fields are assigned
    whenever the container has a list of limits, not only when the list holds
    the resource. *)
Theorem getContainers_assigns_limits_that_are_absent
    (Time_String : Time -> string) (cpuLimit_on_entry memoryLimit_on_entry : float)
    (p : ZunProvider) (w : World R) :
  (exists (capsule : capsules.Template) (c : capsules.Container (list string)),
      requests (world_of
                  (CreatePod Time_String cpuLimit_on_entry memoryLimit_on_entry
                     p scenario_pod w))
      = requests w ++ [ReqCreate "ns1-web" capsule]
      /\ capsules.Containers capsule = [c]
      /\ capsules.Container_CPU c = 0.5%float
      /\ capsules.Container_Memory c = (268435456 / 1000000000 * 1024)%float
      /\ PrimFloat.ltb (256 / 1000) (capsules.Container_Memory c / 1024) = true
      /\ PrimFloat.ltb (capsules.Container_Memory c / 1024) (256 / 1000 * 105 / 100) = true)
  /\ (exists c1 c2 : capsules.Container (list string),
        getContainers cpuLimit_on_entry memoryLimit_on_entry p split_limits_pod
        = ([c1; c2], None)
        /\ capsules.Container_CPU c1 = 0.5%float
        /\ capsules.Container_Memory c1 = (memoryLimit_on_entry * 1024)%float
        /\ capsules.Container_CPU c2 = 0.5%float
        /\ capsules.Container_Memory c2 = (268435456 / 1000000000 * 1024)%float).
Proof.
  split.
  - unfold CreatePod.
    destruct (getContainers cpuLimit_on_entry memoryLimit_on_entry p scenario_pod)
      as [containers err] eqn:Hc.
    vm_compute in Hc. injection Hc as <- <-.
    unfold capsules_Create, scenario_pod; simpl.
    destruct (remote_Create _ _ (remote w)) as [err r]. simpl.
    eexists _, _. split; [reflexivity|]. split; [reflexivity|].
    repeat split; reflexivity.
  - destruct (getContainers cpuLimit_on_entry memoryLimit_on_entry p split_limits_pod)
      as [containers err] eqn:Hc.
    vm_compute in Hc. injection Hc as <- <-.
    eexists _, _. split; [reflexivity|].
    repeat split; reflexivity.
Qed.

(** C9. [UpdatePod] returns no error for every pod, and [GetContainerLogs]
    returns its fixed text and no error for every namespace, pod, container
    and tail; neither sends a request nor writes to the log. *)
Theorem unsupported_operations_return_no_error
    (p : ZunProvider) (pod : v1.Pod) (namespace podName containerName : string)
    (tail : Z) (w : World R) :
  UpdatePod p pod w = Done None w
  /\ GetContainerLogs p namespace podName containerName tail w
     = Done ("not support in Zun Provider", None) w.
Proof. split; reflexivity. Qed.

End Operations.

Lemma GetPods_keeps_entries_of_this_node_witness :
  GetPods sample_provider listing_world
  = Done (Some [Some (pod_of_capsule (sample_reply "web" "virtual-kubelet" None));
                Some (pod_of_capsule (sample_reply "bad" "virtual-kubelet" None))],
          None)
         {| remote := remote listing_world; logged := []; requests := [ReqList; ReqList] |}
  /\ GetPodsWith (fun c w => Done (picky_translation c) w) sample_provider listing_world
     = Done (Some [Some (pod_of_capsule (sample_reply "web" "virtual-kubelet" None))], None)
            {| remote := remote listing_world;
               logged := ["malformed capsule"];
               requests := [ReqList; ReqList] |}.
Proof.
  pose proof
    (GetPods_keeps_entries_of_this_node sample_provider listing_world
       [ {| capsules.ExtractCapsules :=
              ([sample_reply "web" "virtual-kubelet" None;
                sample_reply "db" "other-node" None;
                sample_reply "bad" "virtual-kubelet" None], None) |} ]
       (remote listing_world)
       [[sample_reply "web" "virtual-kubelet" None;
         sample_reply "db" "other-node" None;
         sample_reply "bad" "virtual-kubelet" None]]
       (remote listing_world) eq_refl eq_refl) as [_ [Hcode Hany]].
  split.
  - exact Hcode.
  - exact (Hany (fun c w => Done (picky_translation c) w) picky_translation
             (fun _ _ => eq_refl)).
Defined.

Lemma GetPodStatus_of_missing_pod_is_an_error_witness :
  GetPod sample_provider "ns1" "web" empty_world
  = Done (None, Some "Resource not found")
         {| remote := remote empty_world; logged := []; requests := [ReqGet "ns1-web"] |}
  /\ GetPodStatus sample_provider "ns1" "web" empty_world
     = Done (None, Some "Resource not found")
            {| remote := remote empty_world; logged := []; requests := [ReqGet "ns1-web"] |}.
Proof.
  exact (GetPodStatus_of_missing_pod_is_an_error sample_provider "ns1" "web" empty_world
           None "Resource not found" (remote empty_world) eq_refl).
Defined.

(** * Further properties *)

(** ** Statuses of containers *)

(** X1. The phase [zunStatusToPodPhase] gives a container status: Running for
    Running, Succeeded for Stopped, Failed for Error and Dead, Pending for the
    seven statuses of a container in transition, and Unknown for every other
    string, so also for these words in another case. *)
Theorem container_status_to_phase :
  zunStatusToPodPhase "Running" = v1.PodRunning
  /\ zunStatusToPodPhase "Stopped" = v1.PodSucceeded
  /\ zunStatusToPodPhase "Error" = v1.PodFailed
  /\ zunStatusToPodPhase "Dead" = v1.PodFailed
  /\ Forall (fun status => zunStatusToPodPhase status = v1.PodPending)
       ["Creating"; "Created"; "Restarting"; "Rebuilding"; "Paused"; "Deleting"; "Deleted"]
  /\ forall status : string,
       ~ In status ["Running"; "Stopped"; "Error"; "Dead"; "Creating"; "Created";
                    "Restarting"; "Rebuilding"; "Paused"; "Deleting"; "Deleted"] ->
       zunStatusToPodPhase status = v1.PodUnknown.
Proof.
  split; [reflexivity|]. split; [reflexivity|]. split; [reflexivity|].
  split; [reflexivity|]. split; [repeat constructor|].
  intros status Hout. unfold zunStatusToPodPhase.
  repeat match goal with
         | |- context [String.eqb status ?t] =>
             destruct (String.eqb_spec status t) as [Heq|_];
             [exfalso; apply Hout; rewrite Heq; simpl; tauto|]
         end.
  reflexivity.
Qed.

Lemma container_status_to_phase_witness :
  zunStatusToPodPhase "running" = v1.PodUnknown.
Proof.
  apply (proj2 (proj2 (proj2 (proj2 (proj2 container_status_to_phase))))).
  simpl. intros Hin.
  repeat (destruct Hin as [Hin|Hin]; [discriminate Hin|]). exact Hin.
Defined.

(** A container status counts as Running only when it is the string
    Running. *)
Lemma phase_running_iff (status : string) :
  zunStatusToPodPhase status = v1.PodRunning <-> status = "Running".
Proof.
  split; [|intros ->; reflexivity].
  unfold zunStatusToPodPhase.
  destruct (String.eqb_spec status "Running") as [Heq|_]; [intros _; exact Heq|].
  repeat match goal with
         | |- context [String.eqb status ?t] => destruct (String.eqb status t)
         end; discriminate.
Qed.

(** X2. The state and the phase the two mappings give one container status agree:
    the state is Terminated exactly when the phase is Failed, Running exactly
    when the phase is Running or Succeeded, and Waiting exactly when the phase
    is Pending or Unknown. *)
Theorem container_state_agrees_with_phase {Cmd : Type} (cs : capsules.Container Cmd) :
  let state := zunContainerStausToContainerStatus cs in
  let phase := zunStatusToPodPhase (capsules.Container_Status cs) in
  (is_Some (v1.Terminated state) <-> phase = v1.PodFailed)
  /\ (is_Some (v1.Running state) <-> phase = v1.PodRunning \/ phase = v1.PodSucceeded)
  /\ (is_Some (v1.Waiting state) <-> phase = v1.PodPending \/ phase = v1.PodUnknown).
Proof.
  intros state phase. subst state phase.
  unfold zunContainerStausToContainerStatus, zunStatusToPodPhase.
  generalize (capsules.Container_Status cs). intros status.
  assert (Hno : forall A, ~ is_Some (@None A)) by (intros A [x Hx]; discriminate Hx).
  assert (Hyes : forall A (x : A), is_Some (Some x)) by (intros A x; exists x; reflexivity).
  destruct (String.eqb_spec status "Running") as [->|_]; simpl.
  { repeat split; intros Hx; try (exfalso; apply (Hno _ Hx)); try discriminate Hx;
      try (destruct Hx as [Hx|Hx]; discriminate Hx); auto. }
  destruct (String.eqb_spec status "Stopped") as [->|_]; simpl.
  { repeat split; intros Hx; try (exfalso; apply (Hno _ Hx)); try discriminate Hx;
      try (destruct Hx as [Hx|Hx]; discriminate Hx); auto. }
  destruct (String.eqb_spec status "Error") as [->|_]; simpl.
  { repeat split; intros Hx; try (exfalso; apply (Hno _ Hx)); try discriminate Hx;
      try (destruct Hx as [Hx|Hx]; discriminate Hx); auto. }
  destruct (String.eqb_spec status "Dead") as [->|_]; simpl.
  { repeat split; intros Hx; try (exfalso; apply (Hno _ Hx)); try discriminate Hx;
      try (destruct Hx as [Hx|Hx]; discriminate Hx); auto. }
  repeat match goal with
         | |- context [String.eqb status ?t] => destruct (String.eqb status t)
         end;
    (repeat split; intros Hx; try (exfalso; apply (Hno _ Hx)); try discriminate Hx;
      try (destruct Hx as [Hx|Hx]; discriminate Hx); auto).
Qed.

(** ** More on the translation of a capsule *)

Lemma Forall2_map_of {A B} (P : A -> B -> Prop) (f : A -> B) (l : list A) :
  (forall x, P x (f x)) -> Forall2 P l (map f l).
Proof. intros Hf. induction l; simpl; constructor; auto. Qed.

Section MoreReadPath.

Context {R : Type}.

(** X3. A capsule that lacks one of the four labels of identity still translates,
    without an error, to a pod whose field of that label is empty. *)
Theorem capsuleToPod_leaves_missing_labels_empty (capsule : capsules.Reply) (w : World R) :
  exists pod : v1.Pod,
    capsuleToPod capsule w = Done (Some pod, None) w
    /\ (capsules.MetaLabels capsule !! "PodName" = None ->
        v1.Name (v1.Pod_ObjectMeta pod) = "")
    /\ (capsules.MetaLabels capsule !! "Namespace" = None ->
        v1.Namespace (v1.Pod_ObjectMeta pod) = "")
    /\ (capsules.MetaLabels capsule !! "ClusterName" = None ->
        v1.ClusterName (v1.Pod_ObjectMeta pod) = "")
    /\ (capsules.MetaLabels capsule !! "NodeName" = None ->
        v1.NodeName (v1.Spec pod) = "").
Proof.
  exists (pod_of_capsule capsule). split; [apply capsuleToPod_returns|].
  unfold pod_of_capsule, label; simpl.
  repeat split; intros Hnone; rewrite Hnone; reflexivity.
Qed.

(** X4. Of the labels of a capsule the translation reads PodName, Namespace,
    ClusterName and NodeName and no other: a label under any other key, so
    also under UID or CreationTimestamp, changes nothing. The UID of the pod
    is the UUID of the capsule and its creation time is that of the capsule. *)
Theorem capsuleToPod_reads_four_labels (key value : string)
    (capsule : capsules.Reply) (w : World R) :
  key <> "PodName" -> key <> "Namespace" -> key <> "ClusterName" -> key <> "NodeName" ->
  capsuleToPod (with_label key value capsule) w = capsuleToPod capsule w
  /\ exists pod : v1.Pod,
       capsuleToPod capsule w = Done (Some pod, None) w
       /\ v1.UID (v1.Pod_ObjectMeta pod) = capsules.UUID capsule
       /\ v1.CreationTimestamp (v1.Pod_ObjectMeta pod) = capsules.CreatedAt capsule.
Proof.
  intros Hp Hn Hc Hd. split.
  - rewrite !capsuleToPod_returns. do 2 f_equal.
    unfold pod_of_capsule, with_label, label; simpl.
    rewrite !lookup_insert_ne by assumption. reflexivity.
  - exists (pod_of_capsule capsule). split; [apply capsuleToPod_returns|].
    split; reflexivity.
Qed.

(** X5. The translated pod has one container and one container status for each
    container of the capsule, in the order of the capsule. The container has
    the name and image of the capsule's and its command as a list of one
    string; the status has its name, image and container identifier, no
    restarts, the same state as last state and as current state, and is ready
    exactly when the status of the capsule's container is Running. *)
Theorem capsuleToPod_pairs_containers_with_statuses
    (capsule : capsules.Reply) (w : World R) :
  exists pod : v1.Pod,
    capsuleToPod capsule w = Done (Some pod, None) w
    /\ Forall2
         (fun (c : capsules.Container string) (container : v1.Container) =>
            v1.Container_Name container = capsules.Container_Name c
            /\ v1.Container_Image container = capsules.Container_Image c
            /\ v1.Container_Command container = [capsules.Container_Command c])
         (capsules.Containers capsule) (v1.Containers (v1.Spec pod))
    /\ Forall2
         (fun (c : capsules.Container string) (status : v1.ContainerStatus) =>
            v1.ContainerStatus_Name status = capsules.Container_Name c
            /\ v1.ContainerStatus_Image status = capsules.Container_Image c
            /\ v1.ContainerStatus_ContainerID status = capsules.Container_ContainerID c
            /\ v1.ContainerStatus_RestartCount status = 0
            /\ v1.ContainerStatus_LastTerminationState status
               = v1.ContainerStatus_State status
            /\ (v1.ContainerStatus_Ready status = true
                <-> capsules.Container_Status c = "Running"))
         (capsules.Containers capsule) (v1.ContainerStatuses (v1.Status pod)).
Proof.
  exists (pod_of_capsule capsule). split; [apply capsuleToPod_returns|].
  simpl. split.
  - apply Forall2_map_of. intros c. repeat split.
  - apply Forall2_map_of. intros c. simpl.
    do 5 (split; [reflexivity|]).
    rewrite bool_decide_eq_true. apply phase_running_iff.
Qed.

End MoreReadPath.

Lemma capsuleToPod_leaves_missing_labels_empty_witness :
  exists pod : v1.Pod,
    capsuleToPod (sample_reply "web" "virtual-kubelet" None) empty_world
    = Done (Some pod, None) empty_world
    /\ v1.ClusterName (v1.Pod_ObjectMeta pod) = "".
Proof.
  destruct (capsuleToPod_leaves_missing_labels_empty
              (sample_reply "web" "virtual-kubelet" None) empty_world)
    as [pod [Hrun [_ [_ [Hcluster _]]]]].
  exists pod. split; [exact Hrun | apply Hcluster; reflexivity].
Defined.

Lemma capsuleToPod_reads_four_labels_witness :
  capsuleToPod (with_label "UID" "7c9e6679" two_IPv4_reply) empty_world
  = capsuleToPod two_IPv4_reply empty_world
  /\ exists pod : v1.Pod,
       capsuleToPod two_IPv4_reply empty_world = Done (Some pod, None) empty_world
       /\ v1.UID (v1.Pod_ObjectMeta pod) = "0a1b"
       /\ v1.CreationTimestamp (v1.Pod_ObjectMeta pod) = 1500000100.
Proof.
  apply (capsuleToPod_reads_four_labels "UID" "7c9e6679" two_IPv4_reply empty_world);
    discriminate.
Defined.

(** ** More on the translation of a pod *)

(** [getContainers] returns no error, and one container per container of the
    pod, in order, with the fields it copies and its limits applied. *)
Lemma getContainers_each (cpuLimit_on_entry memoryLimit_on_entry : float)
    (p : ZunProvider) (pod : v1.Pod) :
  exists outs : list (capsules.Container (list string)),
    getContainers cpuLimit_on_entry memoryLimit_on_entry p pod = (outs, None)
    /\ Forall2 (fun container c => copied_fields container c /\ limits_applied container c)
         (v1.Containers (v1.Spec pod)) outs.
Proof.
  unfold getContainers.
  match goal with |- context [fold_left ?f _ _] => set (step := f) end.
  assert (Hgen : forall l acc cl ml,
             exists outs cl' ml',
               fold_left step l (acc, cl, ml) = (acc ++ outs, cl', ml')
               /\ Forall2 (fun container c =>
                             copied_fields container c /\ limits_applied container c)
                    l outs).
  { induction l as [|x l IH]; intros acc cl ml.
    - exists [], cl, ml. rewrite app_nil_r. split; [reflexivity | constructor].
    - change (fold_left step (x :: l) (acc, cl, ml))
        with (fold_left step l (step (acc, cl, ml) x)).
      assert (Hstep : exists out cl1 ml1,
                 step (acc, cl, ml) x = (acc ++ [out], cl1, ml1)
                 /\ copied_fields x out /\ limits_applied x out).
      { unfold step, copied_fields, limits_applied.
        destruct (v1.Limits (v1.Container_Resources x)) as [limits|].
        - eexists _, _, _. split; [reflexivity|]. simpl.
          split; [repeat split|]. unfold v1.Cpu, v1.Memory. split.
          + intros q Hq. rewrite Hq. reflexivity.
          + intros q Hq. rewrite Hq. reflexivity.
        - eexists _, _, _. split; [reflexivity|]. simpl.
          split; [repeat split|]. split; reflexivity. }
      destruct Hstep as (out & cl1 & ml1 & Hstep & Hcopied & Hlimits).
      rewrite Hstep.
      destruct (IH (acc ++ [out]) cl1 ml1) as (outs & cl' & ml' & Heq & Hall).
      exists (out :: outs), cl', ml'. rewrite Heq, <- app_assoc.
      split; [reflexivity|]. constructor; [split; assumption | exact Hall]. }
  destruct (Hgen (v1.Containers (v1.Spec pod)) [] cpuLimit_on_entry memoryLimit_on_entry)
    as (outs & cl' & ml' & Heq & Hall).
  exists outs. rewrite Heq. split; [reflexivity | exact Hall].
Qed.

Lemma env_untouched (l : list v1.EnvVar) (m : gmap string string) (key : string) :
  Forall (fun e => v1.EnvVar_Name e <> key) l ->
  fold_left (fun env e => <[v1.EnvVar_Name e := v1.EnvVar_Value e]> env) l m !! key
  = m !! key.
Proof.
  intros Hl. revert m. induction Hl as [|e l Hne _ IH]; intros m; simpl; [reflexivity|].
  rewrite IH. apply lookup_insert_ne. exact Hne.
Qed.

(** X6. [getContainers] never returns an error. It returns one container per
    container of the pod, in the order of the pod, none for a pod without
    containers, and each has the name, image, working directory and pull
    policy of its container, the command followed by the arguments as its
    command, and the variables of the environment as a map. *)
Theorem getContainers_copies_every_container
    (cpuLimit_on_entry memoryLimit_on_entry : float) (p : ZunProvider) (pod : v1.Pod) :
  exists outs : list (capsules.Container (list string)),
    getContainers cpuLimit_on_entry memoryLimit_on_entry p pod = (outs, None)
    /\ Forall2 copied_fields (v1.Containers (v1.Spec pod)) outs.
Proof.
  destruct (getContainers_each cpuLimit_on_entry memoryLimit_on_entry p pod)
    as (outs & Heq & Hall).
  exists outs. split; [exact Heq|].
  eapply Forall2_impl; [exact Hall|]. intros container c [Hcopied _]. exact Hcopied.
Qed.

(** X7. A container of the pod whose list of limits is nil gets no cpu and no
    memory in the capsule: both fields keep their zero, whatever the
    containers before it set. *)
Theorem getContainers_without_limits_sets_nothing
    (cpuLimit_on_entry memoryLimit_on_entry : float) (p : ZunProvider) (pod : v1.Pod)
    (i : nat) (container : v1.Container) :
  v1.Containers (v1.Spec pod) !! i = Some container ->
  v1.Limits (v1.Container_Resources container) = None ->
  exists c : capsules.Container (list string),
    (getContainers cpuLimit_on_entry memoryLimit_on_entry p pod).1 !! i = Some c
    /\ capsules.Container_CPU c = 0%float
    /\ capsules.Container_Memory c = 0%float.
Proof.
  intros Hi Hnil.
  destruct (getContainers_each cpuLimit_on_entry memoryLimit_on_entry p pod)
    as (outs & Heq & Hall).
  destruct (Forall2_lookup_l _ _ _ _ _ Hall Hi) as (c & Hc & _ & Hlimits).
  exists c. rewrite Heq. split; [exact Hc|].
  unfold limits_applied in Hlimits. rewrite Hnil in Hlimits. exact Hlimits.
Qed.

(** X8. A limit that a container of the pod does have is converted whatever the
    containers before it set: a cpu limit to its thousandths over 1000, a
    memory limit to its bytes over ten to the ninth, times 1024. *)
Theorem getContainers_converts_limits_that_are_present
    (cpuLimit_on_entry memoryLimit_on_entry : float) (p : ZunProvider) (pod : v1.Pod)
    (i : nat) (container : v1.Container) (limits : gmap string resource.Quantity) :
  v1.Containers (v1.Spec pod) !! i = Some container ->
  v1.Limits (v1.Container_Resources container) = Some limits ->
  exists c : capsules.Container (list string),
    (getContainers cpuLimit_on_entry memoryLimit_on_entry p pod).1 !! i = Some c
    /\ (forall q : resource.Quantity,
          limits !! v1.ResourceCPU = Some q ->
          capsules.Container_CPU c
          = (float64_of_int (resource.MilliValue q) / 1000)%float)
    /\ (forall q : resource.Quantity,
          limits !! v1.ResourceMemory = Some q ->
          capsules.Container_Memory c
          = (float64_of_int (resource.Value q) / 1000000000 * 1024)%float).
Proof.
  intros Hi Hsome.
  destruct (getContainers_each cpuLimit_on_entry memoryLimit_on_entry p pod)
    as (outs & Heq & Hall).
  destruct (Forall2_lookup_l _ _ _ _ _ Hall Hi) as (c & Hc & _ & Hlimits).
  exists c. rewrite Heq. split; [exact Hc|].
  unfold limits_applied in Hlimits. rewrite Hsome in Hlimits. exact Hlimits.
Qed.

(** X9. In the environment of a translated container a variable has the value of
    the last entry of the container that sets it, and a name that no entry
    sets is absent. *)
Theorem getContainers_environment_last_write_wins
    (cpuLimit_on_entry memoryLimit_on_entry : float) (p : ZunProvider) (pod : v1.Pod)
    (i : nat) (container : v1.Container) (before : list v1.EnvVar) (e : v1.EnvVar)
    (after : list v1.EnvVar) :
  v1.Containers (v1.Spec pod) !! i = Some container ->
  v1.Container_Env container = before ++ e :: after ->
  Forall (fun e' => v1.EnvVar_Name e' <> v1.EnvVar_Name e) after ->
  exists c : capsules.Container (list string),
    (getContainers cpuLimit_on_entry memoryLimit_on_entry p pod).1 !! i = Some c
    /\ capsules.Container_Environment c !! v1.EnvVar_Name e = Some (v1.EnvVar_Value e)
    /\ (forall key : string,
          Forall (fun e' => v1.EnvVar_Name e' <> key) (v1.Container_Env container) ->
          capsules.Container_Environment c !! key = None).
Proof.
  intros Hi Henv Hafter.
  destruct (getContainers_each cpuLimit_on_entry memoryLimit_on_entry p pod)
    as (outs & Heq & Hall).
  destruct (Forall2_lookup_l _ _ _ _ _ Hall Hi) as (c & Hc & Hcopied & _).
  exists c. rewrite Heq. split; [exact Hc|].
  destruct Hcopied as (_ & _ & _ & _ & _ & Hmap). rewrite Hmap. split.
  - rewrite Henv, fold_left_app. simpl.
    rewrite env_untouched by exact Hafter. apply lookup_insert_eq.
  - intros key Hkey. rewrite env_untouched by exact Hkey. apply lookup_empty.
Qed.

Lemma getContainers_without_limits_sets_nothing_witness :
  exists c : capsules.Container (list string),
    (getContainers 3 7 sample_provider sample_env_pod).1 !! 1%nat = Some c
    /\ capsules.Container_CPU c = 0%float
    /\ capsules.Container_Memory c = 0%float.
Proof.
  exact (getContainers_without_limits_sets_nothing 3 7 sample_provider sample_env_pod
           1 sample_env_container eq_refl eq_refl).
Defined.

Lemma getContainers_converts_limits_that_are_present_witness :
  exists c : capsules.Container (list string),
    (getContainers 3 7 sample_provider split_limits_pod).1 !! 1%nat = Some c
    /\ capsules.Container_Memory c = (268435456 / 1000000000 * 1024)%float.
Proof.
  destruct (getContainers_converts_limits_that_are_present 3 7 sample_provider
              split_limits_pod 1
              (sample_container "c2" "redis"
                 (Some (<[v1.ResourceMemory := memory_256Mi]> ∅)))
              (<[v1.ResourceMemory := memory_256Mi]> ∅) eq_refl eq_refl)
    as (c & Hc & _ & Hmemory).
  exists c. split; [exact Hc|]. apply (Hmemory memory_256Mi). reflexivity.
Defined.

Lemma getContainers_environment_last_write_wins_witness :
  exists c : capsules.Container (list string),
    (getContainers 3 7 sample_provider sample_env_pod).1 !! 1%nat = Some c
    /\ capsules.Container_Environment c !! "MODE" = Some "prod"
    /\ (forall key : string,
          Forall (fun e' => v1.EnvVar_Name e' <> key) (v1.Container_Env sample_env_container) ->
          capsules.Container_Environment c !! key = None).
Proof.
  apply (getContainers_environment_last_write_wins 3 7 sample_provider sample_env_pod
           1 sample_env_container
           [ {| v1.EnvVar_Name := "MODE"; v1.EnvVar_Value := "dev" |};
             {| v1.EnvVar_Name := "PORT"; v1.EnvVar_Value := "80" |} ]
           {| v1.EnvVar_Name := "MODE"; v1.EnvVar_Value := "prod" |} []).
  - reflexivity.
  - reflexivity.
  - constructor.
Defined.

(** ** More on the operations *)
Section MoreOperations.

Context {R : Type} `{RemoteAPI R}.

(** A walk whose handler only counts returns, whatever the steps are. *)
Lemma each_page_counts_any (handler : capsules.Page -> Z -> M R (bool * option error * Z))
    (steps : list capsules.PageFetch) (n : Z) (w : World R) :
  (forall page k w0, handler page k w0 = Done (true, None, k + 1) w0) ->
  exists n' err, each_page handler n steps w = Done (n', err) w.
Proof.
  intros Hhandler. revert n. induction steps as [|[page|e] steps IH]; intros n; simpl.
  - eexists _, _. reflexivity.
  - erewrite bind_Done by apply Hhandler. simpl. apply IH.
  - eexists _, _. reflexivity.
Qed.

(** A walk keeps what its handler keeps, when the handler leaves the world as
    it is. *)
Lemma each_page_keeps {S} (P : S -> Prop)
    (handler : capsules.Page -> S -> M R (bool * option error * S))
    (steps : list capsules.PageFetch) (s : S) (w : World R) :
  (forall page s0 w0, P s0 ->
     exists ok err s1, handler page s0 w0 = Done (ok, err, s1) w0 /\ P s1) ->
  P s ->
  exists s' err, each_page handler s steps w = Done (s', err) w /\ P s'.
Proof.
  intros Hhandler. revert s. induction steps as [|[page|e] steps IH]; intros s Hs; simpl.
  - eexists _, _. split; [reflexivity | exact Hs].
  - destruct (Hhandler page s w Hs) as (ok & err & s1 & Hrun & Hs1).
    erewrite bind_Done by exact Hrun. simpl.
    destruct err as [e|]; [eexists _, _; split; [reflexivity | exact Hs1]|].
    destruct ok; [apply IH; exact Hs1 | eexists _, _; split; [reflexivity | exact Hs1]].
  - eexists _, _. split; [reflexivity | exact Hs].
Qed.

(** A walk over pages that arrive, up to a transport error. *)
Lemma each_page_counts_until_error
    (handler : capsules.Page -> Z -> M R (bool * option error * Z))
    (pages : list capsules.Page) (e : error) (rest : list capsules.PageFetch)
    (n : Z) (w : World R) :
  (forall page k w0, handler page k w0 = Done (true, None, k + 1) w0) ->
  each_page handler n (map inl pages ++ inr e :: rest) w
  = Done (n + Z.of_nat (length pages), Some e) w.
Proof.
  intros Hhandler. revert n. induction pages as [|page pages IH]; intros n; simpl.
  - rewrite Z.add_0_r. reflexivity.
  - erewrite bind_Done by apply Hhandler. simpl. rewrite IH. do 2 f_equal. lia.
Qed.

(** A walk over pages that all extract, followed by further steps. *)
Lemma pages_walk_then
    (handler : capsules.Page -> list (option v1.Pod)
               -> M R (bool * option error * list (option v1.Pod)))
    (keep : capsules.Reply -> list (option v1.Pod)) (drop : capsules.Reply -> list string)
    (pages : list (list capsules.Reply)) (rest : list capsules.PageFetch)
    (pods : list (option v1.Pod)) (w : World R) :
  (forall entries pods w0,
      handler {| capsules.ExtractCapsules := (entries, None) |} pods w0
      = Done (true, None, pods ++ flat_map keep entries)
             (log_more (flat_map drop entries) w0)) ->
  each_page handler pods
    (map (fun entries => inl {| capsules.ExtractCapsules := (entries, None) |}) pages
     ++ rest) w
  = each_page handler (pods ++ flat_map keep (concat pages)) rest
      (log_more (flat_map drop (concat pages)) w).
Proof.
  intros Hhandler. revert pods w. induction pages as [|entries pages IH]; intros pods w; simpl.
  - rewrite app_nil_r, log_more_nil. reflexivity.
  - erewrite bind_Done by apply Hhandler. simpl.
    rewrite IH, log_more_app, !flat_map_app, app_assoc. reflexivity.
Qed.

(** What the handler of the second walk of [GetPods] does with a page that
    extracts. *)
Lemma GetPods_page (p : ZunProvider)
    (body : list (option v1.Pod) -> capsules.Reply -> M R (list (option v1.Pod)))
    (entries : list capsules.Reply) (pods : list (option v1.Pod)) (w : World R) :
  (forall pods m w0,
      body pods m w0
      = (if negb (String.eqb (label (capsules.MetaLabels m) "NodeName") (nodeName p))
         then mret pods
         else '(pod, err) ← capsuleToPod m;
              match err with
              | Some e => _ ← log_Println e; mret pods
              | None => mret (pods ++ [pod])
              end) w0) ->
  for_range body pods entries w
  = Done (pods ++ kept (fun c => (Some (pod_of_capsule c), None)) (nodeName p) entries) w.
Proof.
  intros Hbody.
  rewrite (entries_loop body
             (fun m =>
                if String.eqb (label (capsules.MetaLabels m) "NodeName") (nodeName p)
                then [Some (pod_of_capsule m)] else [])
             (fun _ => [])).
  - unfold kept. f_equal.
    assert (Hnone : forall l : list capsules.Reply,
               flat_map (fun _ : capsules.Reply => @nil string) l = [])
      by (induction l; simpl; auto).
    rewrite Hnone. apply log_more_nil.
  - intros pods0 m w0. rewrite Hbody.
    destruct (String.eqb (label (capsules.MetaLabels m) "NodeName") (nodeName p)); simpl.
    + erewrite bind_Done by apply capsuleToPod_returns. simpl.
      rewrite log_more_nil. reflexivity.
    + rewrite app_nil_r, log_more_nil. reflexivity.
Qed.

Lemma kept_are_of_the_node (node : string) (entries : list capsules.Reply) :
  Forall (fun entry : option v1.Pod =>
            exists pod, entry = Some pod /\ v1.NodeName (v1.Spec pod) = node)
         (kept (fun c => (Some (pod_of_capsule c), None)) node entries).
Proof.
  rewrite kept_all. apply Forall_map, Forall_forall. intros m Hm.
  apply list_elem_of_In, filter_In in Hm. destruct Hm as [_ Hm].
  exists (pod_of_capsule m). split; [reflexivity|]. simpl.
  apply String.eqb_eq. exact Hm.
Qed.

(** X10. Whatever the service answers to the two listings, [GetPods] returns: it
    does not panic and writes nothing to the log. It returns either an error
    and no list, or a list and no error; and every entry of the list is a pod
    (none is nil) whose node name is the node name of the provider. *)
Theorem GetPods_returns_pods_of_this_node_or_an_error (p : ZunProvider) (w : World R) :
  exists (result : option (list (option v1.Pod)) * option error) (w' : World R),
    GetPods p w = Done result w'
    /\ logged w' = logged w
    /\ ((exists e : error, result = (None, Some e))
        \/ exists pods : list (option v1.Pod),
             result = (Some pods, None)
             /\ Forall (fun entry : option v1.Pod =>
                          exists pod, entry = Some pod
                                      /\ v1.NodeName (v1.Spec pod) = nodeName p)
                       pods).
Proof.
  unfold GetPods, GetPodsWith.
  match goal with
  | |- context [EachPage ?h 0] =>
      assert (Hfirst : exists n err r,
                 EachPage h 0 w
                 = Done (n, err)
                        {| remote := r; logged := logged w;
                           requests := requests w ++ [ReqList] |})
  end.
  { unfold EachPage. destruct (remote_List (remote w)) as [steps r].
    match goal with
    | |- context [each_page ?h 0 steps ?w1] =>
        destruct (each_page_counts_any h steps 0 w1) as (n & err & Hrun);
          [reflexivity|]
    end.
    exists n, err, r. exact Hrun. }
  destruct Hfirst as (n & err & r & Hfirst).
  erewrite bind_Done by exact Hfirst. simpl.
  destruct err as [e|].
  { eexists _, _. split; [reflexivity|]. split; [reflexivity|]. left. eauto. }
  match goal with
  | |- context [EachPage ?h [] ] =>
      assert (Hsecond : exists pods err r2,
                 EachPage h []
                   {| remote := r; logged := logged w; requests := requests w ++ [ReqList] |}
                 = Done (pods, err)
                        {| remote := r2; logged := logged w;
                           requests := (requests w ++ [ReqList]) ++ [ReqList] |}
                 /\ Forall (fun entry : option v1.Pod =>
                              exists pod, entry = Some pod
                                          /\ v1.NodeName (v1.Spec pod) = nodeName p)
                           pods)
  end.
  { unfold EachPage. simpl. destruct (remote_List r) as [steps r2].
    match goal with
    | |- context [each_page ?h [] steps ?w1] =>
        destruct (each_page_keeps
                    (fun pods : list (option v1.Pod) =>
                       Forall (fun entry : option v1.Pod =>
                                 exists pod, entry = Some pod
                                             /\ v1.NodeName (v1.Spec pod) = nodeName p)
                              pods)
                    h steps [] w1) as (pods & err & Hrun & Hpods)
    end.
    - intros [[entries [e|]]] pods w0 Hpods; simpl.
      + eexists _, _, _. split; [reflexivity | exact Hpods].
      + erewrite bind_Done by (apply (GetPods_page p); reflexivity).
        eexists _, _, _. split; [reflexivity|].
        apply Forall_app. split; [exact Hpods | apply kept_are_of_the_node].
    - constructor.
    - exists pods, err, r2. split; [exact Hrun | exact Hpods]. }
  destruct Hsecond as (pods & err & r2 & Hsecond & Hpods).
  erewrite bind_Done by exact Hsecond. simpl.
  destruct err as [e|].
  - eexists _, _. split; [reflexivity|]. split; [reflexivity|]. left. eauto.
  - eexists _, _. split; [reflexivity|]. split; [reflexivity|]. right. eauto.
Qed.

(** X11. When a step of the first walk meets a transport error, [GetPods] returns
    that error and no list, after a single listing: the pages that arrived
    before the error are not looked at and no second walk is made. *)
Theorem GetPods_fails_when_counting_fails (p : ZunProvider) (w : World R)
    (pages : list capsules.Page) (e : error) (rest : list capsules.PageFetch) (r1 : R) :
  remote_List (remote w) = (map inl pages ++ inr e :: rest, r1) ->
  GetPods p w
  = Done (None, Some e)
         {| remote := r1; logged := logged w; requests := requests w ++ [ReqList] |}.
Proof.
  intros Hfirst. unfold GetPods, GetPodsWith.
  erewrite bind_Done.
  2:{ unfold EachPage. rewrite Hfirst. apply each_page_counts_until_error. reflexivity. }
  reflexivity.
Qed.

(** X12. When the second walk, after pages that extract, meets a transport error
    or a page that does not extract, [GetPods] returns that error and no list:
    the pods collected from the pages before it are given up. *)
Theorem GetPods_gives_up_collected_pods_on_error (p : ZunProvider) (w : World R)
    (counted : list capsules.Page) (r1 : R)
    (pages : list (list capsules.Reply)) (bad : capsules.PageFetch) (e : error)
    (rest : list capsules.PageFetch) (r2 : R) :
  remote_List (remote w) = (map inl counted, r1) ->
  remote_List r1
  = (map (fun entries => inl {| capsules.ExtractCapsules := (entries, None) |}) pages
     ++ bad :: rest, r2) ->
  bad = inr e
  \/ (exists entries, bad = inl {| capsules.ExtractCapsules := (entries, Some e) |}) ->
  GetPods p w
  = Done (None, Some e)
         {| remote := r2; logged := logged w; requests := requests w ++ [ReqList; ReqList] |}.
Proof.
  intros Hfirst Hsecond Hbad. unfold GetPods, GetPodsWith.
  erewrite bind_Done.
  2:{ unfold EachPage. rewrite Hfirst. apply each_page_counts. reflexivity. }
  simpl.
  erewrite bind_Done.
  2:{ unfold EachPage. simpl. rewrite Hsecond.
      rewrite (pages_walk_then _
                 (fun m =>
                    if String.eqb (label (capsules.MetaLabels m) "NodeName") (nodeName p)
                    then match (Some (pod_of_capsule m), @None error) with
                         | (pod, None) => [pod]
                         | (_, Some _) => []
                         end
                    else [])
                 (fun _ => [])).
      2:{ intros entries pods w0. simpl.
          erewrite bind_Done by (apply (GetPods_page p); reflexivity).
          assert (Hnone : forall l : list capsules.Reply,
                     flat_map (fun _ : capsules.Reply => @nil string) l = [])
            by (induction l; simpl; auto).
          rewrite Hnone, log_more_nil. reflexivity. }
      assert (Hnone : forall l : list capsules.Reply,
                 flat_map (fun _ : capsules.Reply => @nil string) l = [])
        by (induction l; simpl; auto).
      rewrite Hnone, log_more_nil.
      destruct Hbad as [->|[entries ->]]; simpl; reflexivity. }
  simpl. rewrite <- app_assoc. reflexivity.
Qed.

(** X13. [GetPod] translates whatever capsule the service returns under the
    composed name, without comparing its NodeName label with the node name of
    the provider, and [GetPodStatus] returns the status of that pod. *)
Theorem GetPod_does_not_filter_by_node (p : ZunProvider) (namespace name : string)
    (w : World R) (c : capsules.Reply) (r : R) :
  remote_Get (fmt.Sprintf_s_s namespace name) (remote w) = ((Some c, None), r) ->
  exists (pod : v1.Pod) (w' : World R),
    capsuleToPod c w' = Done (Some pod, None) w'
    /\ GetPod p namespace name w = Done (Some pod, None) w'
    /\ GetPodStatus p namespace name w = Done (Some (v1.Status pod), None) w'
    /\ v1.NodeName (v1.Spec pod) = label (capsules.MetaLabels c) "NodeName".
Proof.
  intros Hget.
  assert (HGetPod :
    GetPod p namespace name w
    = Done (Some (pod_of_capsule c), None)
           {| remote := r; logged := logged w;
              requests := requests w ++ [ReqGet (fmt.Sprintf_s_s namespace name)] |}).
  { unfold GetPod, capsules_Get, mbind, M_bind. rewrite Hget.
    apply capsuleToPod_returns. }
  eexists _, _. split; [apply capsuleToPod_returns|].
  split; [exact HGetPod|]. split; [|reflexivity].
  rewrite GetPodStatus_follows_GetPod, HGetPod. reflexivity.
Qed.


(** *** The composed name *)

Lemma append_assoc (a b c : string) : (a +:+ b) +:+ c = a +:+ (b +:+ c).
Proof.
  induction a as [|x a IH]; [reflexivity|].
  change (String x ((a +:+ b) +:+ c) = String x (a +:+ (b +:+ c))).
  rewrite IH. reflexivity.
Qed.

(** A namespace without a hyphen can be read back from the composed name,
    and the name with it. *)
Lemma composed_name_inj (namespace name namespace' name' : string) :
  no_hyphen namespace = true -> no_hyphen namespace' = true ->
  fmt.Sprintf_s_s namespace name = fmt.Sprintf_s_s namespace' name' ->
  namespace = namespace' /\ name = name'.
Proof.
  unfold fmt.Sprintf_s_s. revert namespace'.
  induction namespace as [|a ns IH]; intros [|a' ns'] Hns Hns' Heq; cbn in Heq.
  - injection Heq as Heq. split; [reflexivity | exact Heq].
  - injection Heq as Ha _. rewrite <- Ha in Hns'. discriminate Hns'.
  - injection Heq as Ha _. rewrite Ha in Hns. discriminate Hns.
  - injection Heq as Ha Heq. cbn in Hns, Hns'.
    apply andb_prop in Hns as [_ Hns]. apply andb_prop in Hns' as [_ Hns'].
    destruct (IH ns' Hns Hns' Heq) as [Hn Hm].
    split; [rewrite Ha, Hn; reflexivity | exact Hm].
Qed.

Lemma GetPod_request (p : ZunProvider) (namespace name : string) (w : World R) :
  requests (world_of (GetPod p namespace name w))
  = requests w ++ [ReqGet (fmt.Sprintf_s_s namespace name)].
Proof.
  unfold GetPod, capsules_Get, mbind, M_bind.
  destruct (remote_Get (fmt.Sprintf_s_s namespace name) (remote w)) as [[reply [e|]] r];
    [reflexivity|].
  destruct reply as [c|]; [|reflexivity].
  rewrite capsuleToPod_returns. reflexivity.
Qed.

(** X15. Two pods whose namespaces hold no hyphen are read under the same capsule
    name only when they have the same namespace and the same name. *)
Theorem composed_name_tells_pods_apart (p : ZunProvider)
    (namespace name namespace' name' : string) (w : World R) :
  no_hyphen namespace = true -> no_hyphen namespace' = true ->
  requests (world_of (GetPod p namespace name w))
  = requests (world_of (GetPod p namespace' name' w)) ->
  namespace = namespace' /\ name = name'.
Proof.
  intros Hns Hns'. rewrite !GetPod_request. intros Heq.
  apply app_inv_head in Heq. injection Heq as Heq.
  apply (composed_name_inj _ _ _ _ Hns Hns' Heq).
Qed.

(** X16. With a hyphen in the namespace the composed name does not tell pods
    apart: the pod named c in the namespace a-b and the pod named b-c in the
    namespace a are read, and deleted, as one and the same capsule. *)
Theorem composed_name_collides_on_hyphens (p : ZunProvider) (a b c : string)
    (pod pod' : v1.Pod) (w : World R) :
  v1.Namespace (v1.Pod_ObjectMeta pod) = a +:+ "-" +:+ b ->
  v1.Name (v1.Pod_ObjectMeta pod) = c ->
  v1.Namespace (v1.Pod_ObjectMeta pod') = a ->
  v1.Name (v1.Pod_ObjectMeta pod') = b +:+ "-" +:+ c ->
  GetPod p (a +:+ "-" +:+ b) c w = GetPod p a (b +:+ "-" +:+ c) w
  /\ DeletePod p pod w = DeletePod p pod' w.
Proof.
  intros Hns Hn Hns' Hn'.
  assert (Hname : fmt.Sprintf_s_s (a +:+ "-" +:+ b) c = fmt.Sprintf_s_s a (b +:+ "-" +:+ c)).
  { unfold fmt.Sprintf_s_s.
    rewrite (append_assoc a ("-" +:+ b) ("-" +:+ c)). reflexivity. }
  split.
  - unfold GetPod. rewrite Hname. reflexivity.
  - unfold DeletePod. rewrite Hns, Hn, Hns', Hn', Hname. reflexivity.
Qed.

(** *** Creating a pod *)


End MoreOperations.

(** ** The constructor *)

(** X18. A provider that [NewZunProvider] returns has the node name, operating
    system and port it was given; its daemon endpoint reports that port; and
    its capacity, which parses without a panic, is always 20 cpus, 100Gi of
    memory and 20 pods. *)
Theorem NewZunProvider_fixes_the_capacity {R : Type}
    (library : ClientLibrary) (config node os : string) (port : Z)
    (p : ZunProvider) (w : World R) :
  NewZunProvider library config node os port = (Some p, None) ->
  nodeName p = node
  /\ operatingSystem p = os
  /\ NodeDaemonEndpoints p = Some {| KubeletEndpoint := {| Port := port |} |}
  /\ Capacity p w
     = Done (<["cpu" := whole_quantity 20]>
               (<["memory" := {| resource.milli := 100 * 2 ^ 30 * 10 ^ 3;
                                 resource.format := resource.BinarySI |}]>
                  (<["pods" := whole_quantity 20]> ∅)))
            w.
Proof.
  unfold NewZunProvider.
  destruct (AuthOptionsFromEnv library); [discriminate|].
  destruct (AuthenticatedClient library); [discriminate|].
  destruct (NewContainerV1 library); [discriminate|].
  intros Heq. injection Heq as <-.
  split; [reflexivity|]. split; [reflexivity|]. split; [reflexivity|].
  vm_compute. reflexivity.
Qed.

(** X19. [NewZunProvider] returns a provider exactly when none of its three calls
    on the client library fails; otherwise it returns no provider and the
    error of the first call that fails, unchanged. The configuration it is
    given has no part in the result. *)
Theorem NewZunProvider_returns_the_first_error
    (library : ClientLibrary) (config node os : string) (port : Z) :
  let result := NewZunProvider library config node os port in
  (forall config' : string, NewZunProvider library config' node os port = result)
  /\ (is_Some result.1
      <-> AuthOptionsFromEnv library = None
          /\ AuthenticatedClient library = None
          /\ NewContainerV1 library = None)
  /\ (forall e : error, AuthOptionsFromEnv library = Some e -> result = (None, Some e))
  /\ (forall e : error,
        AuthOptionsFromEnv library = None -> AuthenticatedClient library = Some e ->
        result = (None, Some e))
  /\ (forall e : error,
        AuthOptionsFromEnv library = None -> AuthenticatedClient library = None ->
        NewContainerV1 library = Some e ->
        result = (None, Some e)).
Proof.
  intros result. subst result. unfold NewZunProvider.
  destruct (AuthOptionsFromEnv library) as [e1|]; simpl.
  { split; [reflexivity|]. split.
    - split; [intros [x Hx]; discriminate Hx | intros (Ha & _ & _); discriminate Ha].
    - repeat split; intros; congruence. }
  destruct (AuthenticatedClient library) as [e2|]; simpl.
  { split; [reflexivity|]. split.
    - split; [intros [x Hx]; discriminate Hx | intros (_ & Hb & _); discriminate Hb].
    - repeat split; intros; congruence. }
  destruct (NewContainerV1 library) as [e3|]; simpl.
  { split; [reflexivity|]. split.
    - split; [intros [x Hx]; discriminate Hx | intros (_ & _ & Hc); discriminate Hc].
    - repeat split; intros; congruence. }
  split; [reflexivity|]. split.
  - split; [intros _; repeat split; reflexivity | intros _; eexists; reflexivity].
  - repeat split; intros; congruence.
Qed.

(** ** The further properties on the sample data *)

Lemma container_state_agrees_with_phase_witness :
  is_Some (v1.Running (zunContainerStausToContainerStatus
                         (sample_reply_container "c1" "Stopped" 512))).
Proof.
  apply (proj2 (proj1 (proj2 (container_state_agrees_with_phase
                                (sample_reply_container "c1" "Stopped" 512))))).
  right. reflexivity.
Defined.

Lemma GetPods_fails_when_counting_fails_witness :
  GetPods sample_provider interrupted_world
  = Done (None, Some "connection reset")
         {| remote := remote interrupted_world; logged := []; requests := [ReqList] |}.
Proof.
  exact (GetPods_fails_when_counting_fails sample_provider interrupted_world
           [sample_page] "connection reset" [] (remote interrupted_world) eq_refl).
Defined.

Lemma GetPods_gives_up_collected_pods_on_error_witness :
  GetPods sample_provider broken_page_world
  = Done (None, Some "unexpected end of JSON input")
         {| remote := remote broken_page_world; logged := [];
            requests := [ReqList; ReqList] |}.
Proof.
  exact (GetPods_gives_up_collected_pods_on_error sample_provider broken_page_world
           [sample_page;
            {| capsules.ExtractCapsules := ([], Some "unexpected end of JSON input") |}]
           (remote broken_page_world)
           [[sample_reply "web" "virtual-kubelet" None]]
           (inl {| capsules.ExtractCapsules := ([], Some "unexpected end of JSON input") |})
           "unexpected end of JSON input" [] (remote broken_page_world)
           eq_refl eq_refl (or_intror (ex_intro _ [] eq_refl))).
Defined.

Lemma GetPod_does_not_filter_by_node_witness :
  exists (pod : v1.Pod) (w' : World Scripted),
    capsuleToPod (sample_reply "db" "other-node" None) w' = Done (Some pod, None) w'
    /\ GetPod sample_provider "ns1" "db" holding_world = Done (Some pod, None) w'
    /\ GetPodStatus sample_provider "ns1" "db" holding_world
       = Done (Some (v1.Status pod), None) w'
    /\ v1.NodeName (v1.Spec pod) = "other-node".
Proof.
  exact (GetPod_does_not_filter_by_node sample_provider "ns1" "db" holding_world
           (sample_reply "db" "other-node" None) (remote holding_world) eq_refl).
Defined.


Lemma composed_name_tells_pods_apart_witness :
  "ns1" = "ns1" /\ "web" = "web".
Proof.
  exact (composed_name_tells_pods_apart sample_provider "ns1" "web" "ns1" "web"
           empty_world eq_refl eq_refl eq_refl).
Defined.

Lemma composed_name_collides_on_hyphens_witness :
  GetPod sample_provider "team-a" "web" empty_world
  = GetPod sample_provider "team" "a-web" empty_world
  /\ DeletePod sample_provider (sample_pod "team-a" "web" []) empty_world
     = DeletePod sample_provider (sample_pod "team" "a-web" []) empty_world.
Proof.
  exact (composed_name_collides_on_hyphens sample_provider "team" "a" "web"
           (sample_pod "team-a" "web" []) (sample_pod "team" "a-web" []) empty_world
           eq_refl eq_refl eq_refl eq_refl).
Defined.

Lemma NewZunProvider_fixes_the_capacity_witness :
  nodeName sample_provider_built = "virtual-kubelet"
  /\ operatingSystem sample_provider_built = "Linux"
  /\ NodeDaemonEndpoints sample_provider_built
     = Some {| KubeletEndpoint := {| Port := 10250 |} |}
  /\ Capacity sample_provider_built empty_world
     = Done (<["cpu" := whole_quantity 20]>
               (<["memory" := {| resource.milli := 100 * 2 ^ 30 * 10 ^ 3;
                                 resource.format := resource.BinarySI |}]>
                  (<["pods" := whole_quantity 20]> ∅)))
            empty_world.
Proof.
  exact (NewZunProvider_fixes_the_capacity
           {| AuthOptionsFromEnv := None; AuthenticatedClient := None;
              NewContainerV1 := None |}
           "cpu: 64" "virtual-kubelet" "Linux" 10250 sample_provider_built empty_world
           eq_refl).
Defined.

Lemma NewZunProvider_returns_the_first_error_witness :
  NewZunProvider
    {| AuthOptionsFromEnv := None;
       AuthenticatedClient := Some "Authentication failed";
       NewContainerV1 := Some "No suitable endpoint" |}
    "" "virtual-kubelet" "Linux" 10250
  = (None, Some "Authentication failed").
Proof.
  apply (proj1 (proj2 (proj2 (proj2
    (NewZunProvider_returns_the_first_error
       {| AuthOptionsFromEnv := None;
          AuthenticatedClient := Some "Authentication failed";
          NewContainerV1 := Some "No suitable endpoint" |}
       "" "virtual-kubelet" "Linux" 10250))))); reflexivity.
Defined.
